(** * The e-commerce dashboard of [dashboard/dashboard.py]

    A shallow embedding of the table transforms of the dashboard script:
    the geolocation de-duplication, the customer/geolocation left join, the
    geometry column, the date filter and the six aggregations.

    Tables are lists of rows, in row order.  A cell that pandas would show
    as NaN, NaT or None is [None]; numeric cells are exact integers in the
    smallest unit of their column (centavos for payment values,
    micro-degrees for coordinates), so sums are exact.  The script adds
    64-bit floats, whose sums depend on the grouping and the order of the
    terms: the statements below only compare sums taken over the same rows
    in the same order.  Time stamps are nanoseconds since the epoch, as
    pandas stores them.

    The tables are taken as [read_csv] returns them, with the date columns
    parsed; [load_data] then only sorts the rows by approval time. *)

From Stdlib Require Import String.
From Stdlib Require Import ZArith List Bool Lia.
From Stdlib Require Import Permutation Sorted.
Import ListNotations.
Local Open Scope Z_scope.

(** ** Errors raised by the script *)

Inductive exn : Type :=
| ValueError   (* idxmax of an empty Series *)
| IndexError.  (* date_range[i] beyond the selected dates *)

Inductive result (A : Type) : Type :=
| Ok (a : A)
| Raise (e : exn).

Arguments Ok {A} a.
Arguments Raise {A} e.

Definition bind {A B : Type} (m : result A) (k : A -> result B) : result B :=
  match m with
  | Ok a => k a
  | Raise e => Raise e
  end.

Notation "x <- m ;; k" := (bind m (fun x => k))
  (at level 61, m at next level, right associativity).

(** ** Cells and equality on cells *)

Definition notnull {A : Type} (c : option A) : bool :=
  match c with
  | Some _ => true
  | None => false
  end.

Definition option_eq_dec {A : Type} (dec : forall a b : A, {a = b} + {a <> b})
  (x y : option A) : {x = y} + {x <> y}.
Proof. decide equality. Defined.

Definition zip_dec : forall a b : option Z, {a = b} + {a <> b} :=
  option_eq_dec Z.eq_dec.

(** ** The pandas operations the script calls *)

Module Pandas.

(** [Series.dropna]: the present cells, in order. *)
Fixpoint dropna {A : Type} (s : list (option A)) : list A :=
  match s with
  | [] => []
  | Some a :: rest => a :: dropna rest
  | None :: rest => dropna rest
  end.

(** [Series.sum]: missing cells are skipped, the empty sum is 0. *)
Definition sum (s : list (option Z)) : Z :=
  fold_left Z.add (dropna s) 0.

Section Keyed.
Context {A K : Type}.
Variable K_dec : forall a b : K, {a = b} + {a <> b}.
Variable key : A -> K.

(** [DataFrame.duplicated(subset=key, keep='first')]: one flag per row,
    set when the key of the row was met in an earlier row.  Two missing
    keys count as equal. *)
Fixpoint duplicated_from (seen : list K) (df : list A) : list bool :=
  match df with
  | [] => []
  | r :: rest =>
      if in_dec K_dec (key r) seen
      then true :: duplicated_from seen rest
      else false :: duplicated_from (key r :: seen) rest
  end.

Definition duplicated (df : list A) : list bool := duplicated_from [] df.

(** [df[~mask]]. *)
Fixpoint drop_flagged (mask : list bool) (df : list A) : list A :=
  match mask, df with
  | m :: mask', r :: rest =>
      if m then drop_flagged mask' rest else r :: drop_flagged mask' rest
  | _, _ => []
  end.

(** [DataFrame.drop_duplicates(subset=key)], with the default
    [keep='first']. *)
Definition drop_duplicates (df : list A) : list A :=
  drop_flagged (duplicated df) df.

(** The same scan in one pass, with the keys met so far. *)
Fixpoint keep_first_from (seen : list K) (df : list A) : list A :=
  match df with
  | [] => []
  | r :: rest =>
      if in_dec K_dec (key r) seen
      then keep_first_from seen rest
      else r :: keep_first_from (key r :: seen) rest
  end.
End Keyed.

(** [Series.unique]: the distinct values in order of first appearance. *)
Definition unique {K : Type} (K_dec : forall a b : K, {a = b} + {a <> b})
  (s : list K) : list K :=
  drop_duplicates K_dec (fun k => k) s.

(** [Series.nunique]: the number of distinct present values. *)
Definition nunique {K : Type} (K_dec : forall a b : K, {a = b} + {a <> b})
  (s : list (option K)) : nat :=
  length (unique K_dec (dropna s)).

(** [Series.count]: the number of present cells. *)
Definition count {K : Type} (s : list (option K)) : nat :=
  length (dropna s).

Section Merge.
Context {L R K : Type}.
Variable K_dec : forall a b : K, {a = b} + {a <> b}.
Variable left_on : L -> K.
Variable right_on : R -> K.
Variable null_right : R.

Definition matching (l : L) (right : list R) : list R :=
  filter (fun r => if K_dec (left_on l) (right_on r) then true else false)
    right.

(** [left.merge(right, how='left', left_on=..., right_on=...)]: the left
    rows in their order, each one paired with every right row of the same
    key, or with a row of missing cells when there is none. *)
Definition merge_left (left : list L) (right : list R) : list (L * R) :=
  flat_map
    (fun l =>
       match matching l right with
       | [] => [(l, null_right)]
       | ms => map (pair l) ms
       end)
    left.
End Merge.

Section Sorting.
Context {K : Type}.

(** [Series.sort_values(ascending=False)] on a Series of counts.  pandas
    sorts with numpy's quicksort, an insertion sort up to 16 entries; on a
    longer Series it may put entries of equal count in another order than
    this insertion sort, which keeps them in the order they had.  The
    statements below use of the result only that it is a permutation of
    the Series with counts that never increase. *)
Fixpoint insert_desc (e : K * nat) (s : list (K * nat)) : list (K * nat) :=
  match s with
  | [] => [e]
  | h :: t =>
      if (snd h <=? snd e)%nat then e :: h :: t else h :: insert_desc e t
  end.

Definition sort_values_desc (s : list (K * nat)) : list (K * nat) :=
  fold_right insert_desc [] s.

(** [Series.idxmax]: the label of the first largest entry; an empty
    Series raises [ValueError]. *)
Fixpoint argmax_from (best : K * nat) (s : list (K * nat)) : K * nat :=
  match s with
  | [] => best
  | e :: rest =>
      if (snd best <? snd e)%nat then argmax_from e rest
      else argmax_from best rest
  end.

Definition idxmax (s : list (K * nat)) : result K :=
  match s with
  | [] => Raise ValueError
  | e :: rest => Ok (fst (argmax_from e rest))
  end.
End Sorting.

(** [Series.value_counts()]: the present values in order of first
    appearance with their number of occurrences, sorted by decreasing
    count. *)
Definition value_counts {K : Type} (K_dec : forall a b : K, {a = b} + {a <> b})
  (s : list (option K)) : list (K * nat) :=
  sort_values_desc
    (map (fun k => (k, count_occ K_dec (dropna s) k))
       (unique K_dec (dropna s))).

(** Group keys of [groupby] (default [sort=True]): the distinct present
    keys in increasing order. *)
Fixpoint insert_key (k : string) (s : list string) : list string :=
  match s with
  | [] => [k]
  | h :: t => if String.leb k h then k :: h :: t else h :: insert_key k t
  end.

Definition sort_keys (s : list string) : list string :=
  fold_right insert_key [] s.

(** [df.groupby(by)]: one group per present key, rows of a missing key
    left out. *)
Definition groupby {A : Type} (by_ : A -> option string) (df : list A)
  : list (string * list A) :=
  map
    (fun k =>
       (k, filter (fun r => if option_eq_dec string_dec (by_ r) (Some k)
                            then true else false) df))
    (sort_keys (unique string_dec (dropna (map by_ df)))).

(** *** Daily resampling *)

Definition ns_per_day : Z := 86400000000000.

(** [Timestamp.normalize]: midnight of the day of [t]. *)
Definition normalize (t : Z) : Z := t / ns_per_day * ns_per_day.

(** [date_range(first, last, freq='D')]. *)
Definition date_range (first last : Z) : list Z :=
  map (fun i => first + Z.of_nat i * ns_per_day)
    (seq 0 (Z.to_nat ((last - first) / ns_per_day + 1))).

(** A time stamp falls in the bin labelled [lbl] when it lies in
    [[lbl, lbl + 1 day)]; NaT falls in no bin. *)
Definition in_bin (lbl : Z) (t : option Z) : bool :=
  match t with
  | Some t => (lbl <=? t) && (t <? lbl + ns_per_day)
  | None => false
  end.

(** [df.resample('D', on=col)]: one bin per calendar day from the day of
    the earliest time stamp to the day of the latest one, bins closed and
    labelled on the left; rows without a time stamp belong to no bin, and
    a table without any time stamp has no bins. *)
Definition resample_D {A : Type} (on : A -> option Z) (df : list A)
  : list (Z * list A) :=
  match dropna (map on df) with
  | [] => []
  | t :: ts =>
      let first := normalize (fold_left Z.min ts t) in
      let last := fold_left Z.max ts t in
      map (fun lbl => (lbl, filter (fun r => in_bin lbl (on r)) df))
        (date_range first last)
  end.

(** *** Sorting rows and taking the first rows *)

Section InsertionSort.
Context {A : Type}.

(** [before e h] says that [e] goes in front of [h]. *)
Variable before : A -> A -> bool.

Fixpoint insert_by (e : A) (s : list A) : list A :=
  match s with
  | [] => [e]
  | h :: t => if before e h then e :: h :: t else h :: insert_by e t
  end.

(** A stable sort: rows that may stand in either order keep the order they
    had. *)
Definition sort_by (s : list A) : list A := fold_right insert_by [] s.
End InsertionSort.

(** [DataFrame.sort_values(by=..., ascending=True)] on a column of counts. *)
Definition sort_values_asc {K : Type} (s : list (K * nat)) : list (K * nat) :=
  sort_by (fun e h => (snd e <=? snd h)%nat) s.

(** The order of two rows by a time stamp column; rows without a time stamp
    are not compared. *)
Definition earlier {A : Type} (by_ : A -> option Z) (a b : A) : bool :=
  match by_ a, by_ b with
  | Some x, Some y => x <=? y
  | _, _ => true
  end.

(** [DataFrame.sort_values(by=col)] on a time stamp column, with the default
    [na_position='last']: the rows with a time stamp in increasing order,
    then the rows without one, in the order they had.  Rows of equal time
    stamp keep their order here; numpy's quicksort may exchange them in a
    long table, and no statement below depends on their order. *)
Definition sort_values_by {A : Type} (by_ : A -> option Z) (df : list A)
  : list A :=
  sort_by (earlier by_) (filter (fun r => notnull (by_ r)) df)
  ++ filter (fun r => negb (notnull (by_ r))) df.

(** [df.head(n)] and [df.tail(n)]. *)
Definition head {A : Type} (n : nat) (df : list A) : list A := firstn n df.

Definition tail {A : Type} (n : nat) (df : list A) : list A :=
  skipn (length df - n) df.

End Pandas.

(** ** Rows *)

(** A row of the combined orders file, with the columns the script reads. *)
Record order_row : Type := {
  order_id : option string;
  customer_id : option string;
  product_id : option string;
  product_category_name_english : option string;
  customer_state : option string;
  customer_zip_code_prefix : option Z;
  order_approved_at : option Z;
  payment_value : option Z;
  review_score : option Z
}.

(** A row of the geolocation table. *)
Record geolocation_row : Type := {
  geolocation_zip_code_prefix : option Z;
  geolocation_lat : option Z;
  geolocation_lng : option Z
}.

(** The cells a left join puts on the right of an unmatched row. *)
Definition null_geolocation : geolocation_row :=
  {| geolocation_zip_code_prefix := None;
     geolocation_lat := None;
     geolocation_lng := None |}.

(** A row of the joined table: the customer columns, then the geolocation
    columns. *)
Definition joined_row : Type := (order_row * geolocation_row)%type.

(** A shapely point; a NaN coordinate is stored as it is. *)
Inductive Point : Type :=
| mkPoint (x y : option Z).

(** ** Loading and joining *)

(** [load_geolocation], applied to the table [read_csv] returned. *)
Definition load_geolocation (df : list geolocation_row) : list geolocation_row :=
  Pandas.drop_duplicates zip_dec geolocation_zip_code_prefix df.

Definition merge_customer_geolocation
  (customers_df : list order_row) (geolocation_df : list geolocation_row)
  : list joined_row :=
  Pandas.merge_left zip_dec customer_zip_code_prefix
    geolocation_zip_code_prefix null_geolocation customers_df geolocation_df.

(** The [lambda] of the geometry column: only the longitude is tested. *)
Definition geometry_of (x : joined_row) : option Point :=
  if notnull (geolocation_lng (snd x))
  then Some (mkPoint (geolocation_lng (snd x)) (geolocation_lat (snd x)))
  else None.

(** [customers_df['geometry'] = customers_df.apply(..., axis=1)]. *)
Definition with_geometry (customers_df : list joined_row)
  : list (joined_row * option Point) :=
  map (fun x => (x, geometry_of x)) customers_df.

(** [GeoDataFrame(customers_df.dropna(subset=['geometry']), ...)]. *)
Definition customers_gdf (customers_df : list joined_row)
  : list (joined_row * option Point) :=
  filter (fun x => notnull (snd x)) (with_geometry customers_df).

(** ** The date filter *)

(** A [datetime.date] of the date picker, as its day number since the
    epoch. *)
Definition date : Type := Z.

(** The time stamp pandas reads from [str(d)], the text "YYYY-MM-DD":
    midnight at the start of that day. *)
Definition Timestamp_of_str (d : date) : Z := d * Pandas.ns_per_day.

(** Comparisons of a time stamp column with a time stamp; NaT compares
    false. *)
Definition ge_ts (c : option Z) (t : Z) : bool :=
  match c with
  | Some x => t <=? x
  | None => false
  end.

Definition le_ts (c : option Z) (t : Z) : bool :=
  match c with
  | Some x => x <=? t
  | None => false
  end.

(** [date_range[i]] on the tuple the date picker returned. *)
Definition getitem (date_range : list date) (i : nat) : result date :=
  match nth_error date_range i with
  | Some d => Ok d
  | None => Raise IndexError
  end.

Definition filtered_df (all_df : list order_row) (date_range : list date)
  : result (list order_row) :=
  d0 <- getitem date_range 0 ;;
  d1 <- getitem date_range 1 ;;
  Ok (filter
        (fun r =>
           ge_ts (order_approved_at r) (Timestamp_of_str d0)
           && le_ts (order_approved_at r) (Timestamp_of_str d1))
        all_df).

(** ** The six aggregations *)

Module Daily.
Record t : Type := {
  order_approved_at : Z;
  total_orders : nat;
  total_revenue : Z
}.
End Daily.

Module Spending.
Record t : Type := {
  order_approved_at : Z;
  daily_spending : Z
}.
End Spending.

Definition prepare_daily_orders (df : list order_row) : list Daily.t :=
  map
    (fun bin =>
       {| Daily.order_approved_at := fst bin;
          Daily.total_orders :=
            Pandas.nunique string_dec (map order_id (snd bin));
          Daily.total_revenue := Pandas.sum (map payment_value (snd bin)) |})
    (Pandas.resample_D order_approved_at df).

Definition compute_total_spending (df : list order_row) : list Spending.t :=
  map
    (fun bin =>
       {| Spending.order_approved_at := fst bin;
          Spending.daily_spending :=
            Pandas.sum (map payment_value (snd bin)) |})
    (Pandas.resample_D order_approved_at df).

(** Rows are (category, total_sold). *)
Definition aggregate_products (df : list order_row) : list (string * nat) :=
  Pandas.sort_values_desc
    (map (fun g => (fst g, Pandas.count (map product_id (snd g))))
       (Pandas.groupby product_category_name_english df)).

(** Rows are (state, num_customers). *)
Definition customer_distribution_by_state (df : list order_row)
  : list (string * nat) :=
  Pandas.sort_values_desc
    (map (fun g => (fst g, Pandas.nunique string_dec (map customer_id (snd g))))
       (Pandas.groupby customer_state df)).

(** The histogram, rows (score, count), and the mode. *)
Definition analyze_review_scores (df : list order_row)
  : result (list (Z * nat) * Z) :=
  let score_counts :=
    Pandas.sort_values_desc
      (Pandas.value_counts Z.eq_dec (map review_score df)) in
  top <- Pandas.idxmax score_counts ;;
  Ok (score_counts, top).

(** Rows are (category, products). *)
Definition analyze_top_low_products (df : list order_row)
  : list (string * nat) :=
  map (fun g => (fst g, Pandas.count (map order_id (snd g))))
    (Pandas.groupby product_category_name_english df).

(** ** One render pass *)

Record aggregates : Type := {
  daily_orders : list Daily.t;
  daily_spending : list Spending.t;
  product_sales : list (string * nat);
  customer_states : list (string * nat);
  review_stats : list (Z * nat);
  top_review : Z;
  sum_order_items_df : list (string * nat)
}.

(** Lines 94 to 102 of the script: the filter, then every aggregate from the
    filtered table. *)
Definition render (all_df : list order_row) (date_range : list date)
  : result aggregates :=
  df <- filtered_df all_df date_range ;;
  review <- analyze_review_scores df ;;
  Ok {| daily_orders := prepare_daily_orders df;
        daily_spending := compute_total_spending df;
        product_sales := aggregate_products df;
        customer_states := customer_distribution_by_state df;
        review_stats := fst review;
        top_review := snd review;
        sum_order_items_df := analyze_top_low_products df |}.

(** ** Loading the orders *)

(** [load_data], applied to the table [read_csv] returned with its date
    columns parsed: the rows sorted by approval time. *)
Definition load_data (df : list order_row) : list order_row :=
  Pandas.sort_values_by order_approved_at df.

(** ** The charts *)

(** The Python list [[x] * k]: no element when [k] is negative. *)
Definition list_mul {A : Type} (x : A) (k : Z) : list A :=
  repeat x (Z.to_nat k).

(** Python's [len], an integer. *)
Definition len {A : Type} (l : list A) : Z := Z.of_nat (length l).

(** Lines 117 and 118: the colours and the rows of the best sellers chart. *)
Definition top_colors (sales : list (string * nat)) : list string :=
  "#72BCD4"%string
  :: list_mul "#D3D3D3"%string (len (Pandas.head 5 sales) - 1).

Definition top_products (sales : list (string * nat)) : list (string * nat) :=
  Pandas.head 5 sales.

(** Lines 123 and 124: the colours and the rows of the worst sellers
    chart. *)
Definition low_colors (items : list (string * nat)) : list string :=
  "#FF6F61"%string
  :: list_mul "#D3D3D3"%string (len (Pandas.tail 5 items) - 1).

Definition low_products (items : list (string * nat)) : list (string * nat) :=
  Pandas.head 5 (Pandas.sort_values_asc items).

(** Line 129: the rows of the state chart. *)
Definition top_states (states : list (string * nat)) : list (string * nat) :=
  Pandas.head 10 states.

(** Line 141: one colour per rating of the histogram, in its order. *)
Definition review_palette (stats : list (Z * nat)) (top : Z) : list string :=
  map (fun score => if score =? top then "#068DA9"%string else "#D3D3D3"%string)
    (map fst stats).

(** ** Vocabulary of the statements *)

(** The calendar day of a time stamp, as a day number. *)
Definition day_of (t : Z) : Z := t / Pandas.ns_per_day.

(** Midnight at the start of a day. *)
Definition midnight (d : Z) : Z := d * Pandas.ns_per_day.

(** The row was approved on day [d]. *)
Definition approved_on (d : Z) (r : order_row) : bool :=
  match order_approved_at r with
  | Some t => day_of t =? d
  | None => false
  end.

(** The row bears the key [k]. *)
Definition has_key {A K : Type} (K_dec : forall a b : K, {a = b} + {a <> b})
  (key : A -> K) (k : K) (r : A) : bool :=
  if K_dec (key r) k then true else false.

(** The first row of a table bearing a given zip-code prefix. *)
Definition first_with_prefix (k : option Z) (df : list geolocation_row)
  : option geolocation_row :=
  find (has_key zip_dec geolocation_zip_code_prefix k) df.

(** The geolocation rows whose prefix equals that of the customer row. *)
Definition matches (c : order_row) (geolocation_df : list geolocation_row)
  : list geolocation_row :=
  Pandas.matching zip_dec customer_zip_code_prefix geolocation_zip_code_prefix
    c geolocation_df.

(** The present review scores of a table, in row order. *)
Definition scores (df : list order_row) : list Z :=
  Pandas.dropna (map review_score df).

(** The distinct present order ids of a table. *)
Definition distinct_order_ids (df : list order_row) : nat :=
  Pandas.nunique string_dec (map order_id df).

(** The total of a column of counts. *)
Definition total (counts : list nat) : nat := fold_right Nat.add 0%nat counts.

(** The days from [lo] to [hi], both included, in increasing order. *)
Definition days (lo hi : Z) : list Z :=
  map (fun i => lo + Z.of_nat i) (seq 0 (Z.to_nat (hi - lo + 1))).

(** The rows of a table approved on day [d]. *)
Definition rows_of_day (d : Z) (df : list order_row) : list order_row :=
  filter (approved_on d) df.

(** The payment values of the rows approved on day [d], added up. *)
Definition spending_of_day (d : Z) (df : list order_row) : Z :=
  Pandas.sum (map payment_value (rows_of_day d df)).

(** The present order ids of a table, in row order. *)
Definition order_ids (df : list order_row) : list string :=
  Pandas.dropna (map order_id df).

(** Some row of a table approved on day [d] bears the order id [i]. *)
Definition ordered_on (d : Z) (df : list order_row) (i : string) : bool :=
  existsb
    (fun r => (if option_eq_dec string_dec (order_id r) (Some i)
               then true else false) && approved_on d r)
    df.

(** The row was approved on one of the days [ds]. *)
Definition approved_among (ds : list Z) (r : order_row) : bool :=
  existsb (fun d => approved_on d r) ds.

(** The number of rows of a table with review score [s]. *)
Definition score_count (df : list order_row) (s : Z) : nat :=
  count_occ Z.eq_dec (scores df) s.

(** The rows of a table whose column [by_] holds [k]. *)
Definition group_rows {A : Type} (by_ : A -> option string) (k : string)
  (df : list A) : list A :=
  filter (fun r => if option_eq_dec string_dec (by_ r) (Some k)
                   then true else false) df.

(** A table of counts whose counts never increase, or never decrease, from
    a row to a later row. *)
Definition descending {K : Type} (s : list (K * nat)) : Prop :=
  StronglySorted (fun a b => (snd b <= snd a)%nat) s.

Definition ascending {K : Type} (s : list (K * nat)) : Prop :=
  StronglySorted (fun a b => (snd a <= snd b)%nat) s.

(** Keys in increasing order. *)
Definition alphabetical (ks : list string) : Prop :=
  Sorted (fun a b => String.leb a b = true) ks.

(** The present keys of a column, in row order. *)
Definition keys_of {A : Type} (by_ : A -> option string) (df : list A)
  : list string :=
  Pandas.dropna (map by_ df).

(** The rows where both columns are present. *)
Definition both_present {A B C : Type} (by_ : A -> option B)
  (col : A -> option C) (df : list A) : list A :=
  filter (fun r => notnull (by_ r) && notnull (col r)) df.

(** The number of rows of a table where a column is present. *)
Definition present_in {A C : Type} (col : A -> option C) (df : list A) : nat :=
  length (filter (fun r => notnull (col r)) df).

(** The customer row gets a point on the map: the first geolocation row of
    its zip-code prefix exists and has a longitude. *)
Definition located (geolocation_df : list geolocation_row) (c : order_row)
  : bool :=
  match first_with_prefix (customer_zip_code_prefix c) geolocation_df with
  | Some g => notnull (geolocation_lng g)
  | None => false
  end.

(** The approval time stamps of a table, in row order. *)
Definition approval_times (df : list order_row) : list Z :=
  Pandas.dropna (map order_approved_at df).

(** The customer columns of a row of the GeoDataFrame. *)
Definition customer_of (x : joined_row * option Point) : order_row :=
  fst (fst x).

(** ** Sample rows *)

(** An order line of customer [c1] in state SP, zip prefix 1001. *)
Definition order_line (id : string) (approved payment score : option Z)
  : order_row :=
  {| order_id := Some id;
     customer_id := Some "c1"%string;
     product_id := Some "p1"%string;
     product_category_name_english := Some "toys"%string;
     customer_state := Some "SP"%string;
     customer_zip_code_prefix := Some 1001;
     order_approved_at := approved;
     payment_value := payment;
     review_score := score |}.

(** 2018-01-01 and 2018-01-02 as day numbers. *)
Definition jan_1 : date := 17532.
Definition jan_2 : date := 17533.

(** A time of day on a given date. *)
Definition at_time (d : date) (hours minutes : Z) : Z :=
  midnight d + (hours * 60 + minutes) * 60000000000.

(** Three orders with payment values 10, 20 and 30, approved on the same
    day. *)
Definition same_day_orders : list order_row :=
  [ order_line "o1" (Some (at_time jan_1 9 0)) (Some 10) (Some 5);
    order_line "o2" (Some (at_time jan_1 13 30)) (Some 20) (Some 4);
    order_line "o3" (Some (at_time jan_1 23 59)) (Some 30) (Some 5) ].


(** A table with a day without orders between two days with orders. *)
Definition jan_3 : date := 17534.
Definition jan_4 : date := 17535.

Definition orders_with_gap : list order_row :=
  [ order_line "o1" (Some (at_time jan_1 9 0)) (Some 10) (Some 5);
    order_line "o2" (Some (at_time jan_3 8 15)) (Some 20) (Some 4) ].

(** One order whose two lines were approved on two consecutive days. *)
Definition order_over_two_days : list order_row :=
  [ order_line "o1" (Some (at_time jan_1 23 50)) (Some 10) (Some 5);
    order_line "o1" (Some (at_time jan_2 0 10)) (Some 20) (Some 5) ].


(** Two scores with the same number of rows, 4 met first, and one row
    without a score. *)
Definition tied_reviews : list order_row :=
  [ order_line "o1" (Some (at_time jan_1 9 0)) (Some 10) (Some 4);
    order_line "o2" (Some (at_time jan_1 10 0)) (Some 20) (Some 5);
    order_line "o3" (Some (at_time jan_2 9 0)) (Some 30) None;
    order_line "o4" (Some (at_time jan_2 11 0)) (Some 40) (Some 5);
    order_line "o5" (Some (at_time jan_3 9 0)) (Some 50) (Some 4) ].

(** A table whose only row has no review score. *)
Definition unreviewed_order : list order_row :=
  [ order_line "o1" (Some (at_time jan_1 9 0)) (Some 10) None ].


(** Order lines of two categories; one line has no product id. *)
Definition product_line (id category : string) (product : option string)
  : order_row :=
  {| order_id := Some id;
     customer_id := Some "c1"%string;
     product_id := product;
     product_category_name_english := Some category;
     customer_state := Some "SP"%string;
     customer_zip_code_prefix := Some 1001;
     order_approved_at := Some (at_time jan_1 9 0);
     payment_value := Some 10;
     review_score := Some 5 |}.

Definition mixed_products : list order_row :=
  [ product_line "o1" "toys" (Some "p1"%string);
    product_line "o2" "books" (Some "p2"%string);
    product_line "o3" "toys" (Some "p3"%string);
    product_line "o4" "toys" None ].


(** Product sales of six categories. *)
Definition six_categories : list order_row :=
  [ product_line "o1" "toys" (Some "p1"%string);
    product_line "o2" "books" (Some "p2"%string);
    product_line "o3" "toys" (Some "p3"%string);
    product_line "o4" "garden" (Some "p4"%string);
    product_line "o5" "music" (Some "p5"%string);
    product_line "o6" "pets" (Some "p6"%string);
    product_line "o7" "auto" (Some "p7"%string) ].


(** Two geolocation rows of the same prefix and one without longitude. *)
Definition sample_geolocation : list geolocation_row :=
  [ {| geolocation_zip_code_prefix := Some 1001;
       geolocation_lat := Some (-23550000);
       geolocation_lng := Some (-46633000) |};
    {| geolocation_zip_code_prefix := Some 1001;
       geolocation_lat := Some (-23560000);
       geolocation_lng := Some (-46640000) |};
    {| geolocation_zip_code_prefix := Some 2002;
       geolocation_lat := Some (-22900000);
       geolocation_lng := None |} ].


(** Orders read in an order that is not the order of their approval. *)
Definition unsorted_orders : list order_row :=
  [ order_line "o2" (Some (at_time jan_2 8 0)) (Some 20) (Some 4);
    order_line "o3" None (Some 5) (Some 3);
    order_line "o1" (Some (at_time jan_1 9 0)) (Some 10) (Some 5) ].


(** * Properties *)

(** ** De-duplication *)

Section KeepFirst.
Context {A K : Type}.
Variable K_dec : forall a b : K, {a = b} + {a <> b}.
Variable key : A -> K.

Lemma drop_flagged_duplicated_from (seen : list K) (df : list A) :
  Pandas.drop_flagged (Pandas.duplicated_from K_dec key seen df) df
  = Pandas.keep_first_from K_dec key seen df.
Proof.
  revert seen.
  induction df as [|r rest IH]; intros seen; simpl; [reflexivity|].
  destruct (in_dec K_dec (key r) seen); simpl; now rewrite IH.
Qed.

Lemma drop_duplicates_keep_first (df : list A) :
  Pandas.drop_duplicates K_dec key df = Pandas.keep_first_from K_dec key [] df.
Proof. apply drop_flagged_duplicated_from. Qed.

Lemma keep_first_from_In (seen : list K) (df : list A) (r : A) :
  In r (Pandas.keep_first_from K_dec key seen df) ->
  In r df /\ ~ In (key r) seen.
Proof.
  revert seen.
  induction df as [|x rest IH]; intros seen; simpl; [tauto|].
  destruct (in_dec K_dec (key x) seen) as [Hin|Hout]; simpl.
  - intros H. apply IH in H. tauto.
  - intros [<-|H]; [tauto|].
    apply IH in H. simpl in H. tauto.
Qed.

Lemma keep_first_from_NoDup (seen : list K) (df : list A) :
  NoDup (map key (Pandas.keep_first_from K_dec key seen df)).
Proof.
  revert seen.
  induction df as [|x rest IH]; intros seen; simpl; [constructor|].
  destruct (in_dec K_dec (key x) seen) as [Hin|Hout]; simpl; [apply IH|].
  constructor; [|apply IH].
  intros H. apply in_map_iff in H. destruct H as (y & Hy & Hin).
  apply keep_first_from_In in Hin. simpl in Hin.
  destruct Hin as [_ Hn]. apply Hn. now left.
Qed.

Lemma keep_first_from_find (seen : list K) (df : list A) (k : K) :
  find (has_key K_dec key k) (Pandas.keep_first_from K_dec key seen df)
  = if in_dec K_dec k seen then None else find (has_key K_dec key k) df.
Proof.
  revert seen.
  induction df as [|x rest IH]; intros seen; simpl.
  - now destruct (in_dec K_dec k seen).
  - destruct (in_dec K_dec (key x) seen) as [Hin|Hout]; simpl.
    + rewrite IH. unfold has_key at 2.
      destruct (in_dec K_dec k seen) as [Hk|Hk]; [reflexivity|].
      destruct (K_dec (key x) k) as [Heq|]; [now subst k|reflexivity].
    + unfold has_key at 1 3.
      destruct (K_dec (key x) k) as [Heq|Hne].
      * subst k. now destruct (in_dec K_dec (key x) seen).
      * rewrite IH. simpl.
        destruct (K_dec (key x) k); [contradiction|].
        now destruct (in_dec K_dec k seen).
Qed.

Lemma keep_first_from_fixed (seen seen' : list K) (df : list A) :
  incl seen' seen ->
  Pandas.keep_first_from K_dec key seen'
    (Pandas.keep_first_from K_dec key seen df)
  = Pandas.keep_first_from K_dec key seen df.
Proof.
  revert seen seen'.
  induction df as [|x rest IH]; intros seen seen' Hsub; simpl; [reflexivity|].
  destruct (in_dec K_dec (key x) seen) as [Hin|Hout]; simpl.
  - now apply IH.
  - destruct (in_dec K_dec (key x) seen') as [Hin'|_].
    + elim Hout. now apply Hsub.
    + f_equal. apply IH.
      intros k [<-|Hk]; [now left|right; now apply Hsub].
Qed.

End KeepFirst.

Lemma load_geolocation_NoDup (df : list geolocation_row) :
  NoDup (map geolocation_zip_code_prefix (load_geolocation df)).
Proof.
  unfold load_geolocation. rewrite drop_duplicates_keep_first.
  apply keep_first_from_NoDup.
Qed.

(** C7: after [load_geolocation] no two rows share a zip-code prefix, and for
    every prefix the row that bears it is the first row of the input that
    bears it (none when the input has none), so each prefix keeps the
    coordinates of its first occurrence. *)
Theorem load_geolocation_keeps_first (df : list geolocation_row) :
  NoDup (map geolocation_zip_code_prefix (load_geolocation df))
  /\ forall k, first_with_prefix k (load_geolocation df) = first_with_prefix k df.
Proof.
  split; [apply load_geolocation_NoDup|].
  intros k. unfold first_with_prefix, load_geolocation.
  rewrite drop_duplicates_keep_first.
  now rewrite keep_first_from_find.
Qed.

(** C8: de-duplicating a geolocation table a second time changes nothing. *)
Theorem load_geolocation_idempotent (df : list geolocation_row) :
  load_geolocation (load_geolocation df) = load_geolocation df.
Proof.
  unfold load_geolocation. rewrite !drop_duplicates_keep_first.
  apply keep_first_from_fixed. apply incl_refl.
Qed.

(** ** The customer/geolocation join *)

Lemma merge_In (cs : list order_row) (gs : list geolocation_row)
  (c : order_row) (g : geolocation_row) :
  In (c, g) (merge_customer_geolocation cs gs) <->
  In c cs /\ (In g (matches c gs) \/ (matches c gs = [] /\ g = null_geolocation)).
Proof.
  unfold merge_customer_geolocation, Pandas.merge_left. rewrite in_flat_map.
  fold (matches c gs). split.
  - intros (c' & Hc' & Hin). fold (matches c' gs) in Hin.
    destruct (matches c' gs) as [|m ms] eqn:E.
    + destruct Hin as [Heq|[]]. inversion Heq; subst. rewrite E. tauto.
    + apply in_map_iff in Hin. destruct Hin as (g' & Heq & Hg').
      inversion Heq; subst. rewrite E. tauto.
  - intros (Hc & H). exists c. split; [assumption|]. fold (matches c gs).
    destruct H as [Hg|(E & ->)].
    + destruct (matches c gs) as [|m ms]; [destruct Hg|].
      apply in_map_iff. now exists g.
    + rewrite E. now left.
Qed.

Lemma merge_cons (c : order_row) (cs : list order_row)
  (gs : list geolocation_row) :
  merge_customer_geolocation (c :: cs) gs
  = match matches c gs with
    | [] => [(c, null_geolocation)]
    | ms => map (pair c) ms
    end ++ merge_customer_geolocation cs gs.
Proof. reflexivity. Qed.

Lemma merge_fst (cs : list order_row) (gs : list geolocation_row) :
  map fst (merge_customer_geolocation cs gs)
  = flat_map (fun c => repeat c (Nat.max 1 (length (matches c gs)))) cs.
Proof.
  induction cs as [|c cs IH]; [reflexivity|].
  rewrite merge_cons, map_app, IH. cbn [flat_map]. f_equal.
  destruct (matches c gs) as [|m ms]; [reflexivity|].
  change (Nat.max 1 (length (m :: ms))) with (length (m :: ms)).
  generalize (m :: ms). intros l.
  induction l as [|x l IHl]; simpl; [reflexivity|now rewrite IHl].
Qed.

Lemma matching_unique (c : order_row) (gs : list geolocation_row) :
  NoDup (map geolocation_zip_code_prefix gs) ->
  (length (matches c gs) <= 1)%nat.
Proof.
  unfold matches, Pandas.matching.
  induction gs as [|g gs IH]; simpl; intros Hnd; [lia|].
  inversion Hnd as [|? ? Hout Hnd']; subst.
  destruct (zip_dec (customer_zip_code_prefix c) (geolocation_zip_code_prefix g))
    as [Heq|Hne]; [|now apply IH].
  assert (E : filter
            (fun r => if zip_dec (customer_zip_code_prefix c)
                           (geolocation_zip_code_prefix r)
                      then true else false) gs = []).
  { destruct (filter _ gs) as [|x l] eqn:F; [reflexivity|].
    assert (Hx : In x (filter
            (fun r => if zip_dec (customer_zip_code_prefix c)
                           (geolocation_zip_code_prefix r)
                      then true else false) gs)) by (rewrite F; now left).
    apply filter_In in Hx. destruct Hx as [Hx Hk].
    destruct (zip_dec (customer_zip_code_prefix c) (geolocation_zip_code_prefix x))
      as [Hk'|]; [|discriminate].
    elim Hout. rewrite <- Heq, Hk'. now apply in_map. }
  rewrite E. simpl. lia.
Qed.

(** C4: the left join keeps every customer row.  The customer columns of the
    result are the customer rows in their order, each repeated once per
    matching geolocation row and kept once when nothing matches; a customer
    row without a match is there with missing geolocation cells only; and
    against a de-duplicated geolocation table the customer columns of the
    result are the customer table itself.  The join is a total function: it
    raises nothing. *)
Theorem merge_customer_geolocation_keeps_customers
  (customers_df : list order_row) (geolocation_df : list geolocation_row) :
  let merged := merge_customer_geolocation customers_df geolocation_df in
  map fst merged
  = flat_map
      (fun c => repeat c (Nat.max 1 (length (matches c geolocation_df))))
      customers_df
  /\ (forall c, In c customers_df -> In c (map fst merged))
  /\ (length customers_df <= length merged)%nat
  /\ (forall c,
        In c customers_df ->
        (forall g, In g geolocation_df ->
                   geolocation_zip_code_prefix g <> customer_zip_code_prefix c) ->
        In (c, null_geolocation) merged
        /\ forall g, In (c, g) merged ->
                     geolocation_lat g = None /\ geolocation_lng g = None)
  /\ map fst
       (merge_customer_geolocation customers_df
          (load_geolocation geolocation_df))
     = customers_df.
Proof.
  cbv zeta. split; [apply merge_fst|]. split; [|split; [|split]].
  - intros c Hc. rewrite merge_fst. apply in_flat_map. exists c.
    split; [assumption|].
    destruct (Nat.max 1 (length (matches c geolocation_df))) eqn:E; [lia|].
    now left.
  - rewrite <- (length_map fst (merge_customer_geolocation _ _)), merge_fst.
    induction customers_df as [|c cs IH]; cbn [flat_map length]; [lia|].
    rewrite length_app, repeat_length. lia.
  - intros c Hc Hno.
    assert (E : matches c geolocation_df = []).
    { destruct (matches c geolocation_df) as [|x l] eqn:E; [reflexivity|].
      assert (Hx : In x (matches c geolocation_df)) by (rewrite E; now left).
      apply filter_In in Hx. destruct Hx as [Hx Hk].
      destruct (zip_dec (customer_zip_code_prefix c)
                  (geolocation_zip_code_prefix x)) as [Hk'|]; [|discriminate].
      elim (Hno x Hx). now symmetry. }
    split.
    + apply merge_In. split; [assumption|]. now right.
    + intros g Hg. apply merge_In in Hg.
      destruct Hg as [_ [Hg|[_ ->]]]; [|split; reflexivity].
      rewrite E in Hg. destruct Hg.
  - rewrite merge_fst.
    induction customers_df as [|c cs IH]; cbn [flat_map]; [reflexivity|].
    rewrite IH.
    assert (Hle := matching_unique c (load_geolocation geolocation_df)
                     (load_geolocation_NoDup geolocation_df)).
    destruct (length (matches c (load_geolocation geolocation_df)))
      as [|[|n]]; simpl; try reflexivity; lia.
Qed.

(** C4, on a table: a customer row whose prefix is missing from the
    geolocation table is kept, with missing geolocation cells. *)
Lemma merge_customer_geolocation_keeps_customers_witness :
  let c := order_line "o1" (Some (at_time jan_1 9 0)) (Some 1000) (Some 5) in
  let g := {| geolocation_zip_code_prefix := Some 2002;
              geolocation_lat := Some (-23550000);
              geolocation_lng := Some (-46633000) |} in
  In (c, null_geolocation) (merge_customer_geolocation [c] [g]).
Proof.
  intros c g.
  destruct (merge_customer_geolocation_keeps_customers [c] [g])
    as (_ & _ & _ & H & _).
  apply (H c).
  - now left.
  - intros g' [<-|[]]. discriminate.
Defined.

(** ** The geometry column *)

Lemma customers_gdf_In (customers_df : list joined_row) (x : joined_row)
  (p : option Point) :
  In (x, p) (customers_gdf customers_df) <->
  In x customers_df
  /\ geolocation_lng (snd x) <> None
  /\ p = Some (mkPoint (geolocation_lng (snd x)) (geolocation_lat (snd x))).
Proof.
  unfold customers_gdf, with_geometry. rewrite filter_In, in_map_iff.
  unfold geometry_of. split.
  - intros ((y & Heq & Hy) & Hp). inversion Heq; subst. simpl in Hp.
    destruct (geolocation_lng (snd x)); simpl in *; [|discriminate].
    repeat split; [assumption|discriminate].
  - intros (Hx & Hlng & ->). split; [|reflexivity].
    exists x. split; [|assumption].
    destruct (geolocation_lng (snd x)); simpl; [reflexivity|contradiction].
Qed.

(** C6, at a joined row with a longitude and no latitude: the row is not
    dropped, it stays in the GeoDataFrame with a point whose second
    coordinate is missing. *)
Theorem customers_gdf_keeps_missing_latitude :
  let c := order_line "o1" (Some (at_time jan_1 9 0)) (Some 1000) (Some 5) in
  let g := {| geolocation_zip_code_prefix := Some 1001;
              geolocation_lat := None;
              geolocation_lng := Some (-46633000) |} in
  merge_customer_geolocation [c] [g] = [(c, g)]
  /\ customers_gdf [(c, g)] = [((c, g), Some (mkPoint (Some (-46633000)) None))].
Proof. split; reflexivity. Qed.

(** ** The date filter *)

Lemma filtered_df_range (all_df : list order_row) (d0 d1 : date) :
  filtered_df all_df [d0; d1]
  = Ok (filter
          (fun r =>
             ge_ts (order_approved_at r) (Timestamp_of_str d0)
             && le_ts (order_approved_at r) (Timestamp_of_str d1))
          all_df).
Proof. reflexivity. Qed.

Lemma filtered_df_In (all_df df : list order_row) (d0 d1 : date) (r : order_row) :
  filtered_df all_df [d0; d1] = Ok df ->
  (In r df <->
   In r all_df
   /\ exists t, order_approved_at r = Some t
                /\ midnight d0 <= t <= midnight d1).
Proof.
  rewrite filtered_df_range. intros H. inversion H; subst; clear H.
  rewrite filter_In, andb_true_iff.
  unfold ge_ts, le_ts, Timestamp_of_str, midnight.
  destruct (order_approved_at r) as [t|].
  - rewrite !Z.leb_le. split.
    + intros (Hin & H0 & H1). split; [assumption|]. exists t. auto.
    + intros (Hin & t' & Heq & H0 & H1). inversion Heq; subst. auto.
  - split.
    + intros (_ & Hf & _). discriminate.
    + intros (_ & t & Hf & _). discriminate.
Qed.

(** C3, at a row approved at 10:30 on the end date of the selected range:
    the row is approved on a day of the range, and the filter drops it. *)
Theorem filtered_df_drops_end_date_rows :
  let r := order_line "o1" (Some (at_time jan_2 10 30)) (Some 1000) (Some 5) in
  approved_on jan_2 r = true
  /\ filtered_df [r] [jan_1; jan_2] = Ok [].
Proof. split; vm_compute; reflexivity. Qed.

(** ** An empty selection *)

Lemma filtered_df_empty (all_df : list order_row) (d0 d1 : date) :
  (d1 < d0
   \/ forall r t, In r all_df -> order_approved_at r = Some t ->
                  t < midnight d0 \/ midnight d1 < t) ->
  filtered_df all_df [d0; d1] = Ok [].
Proof.
  intros H. destruct (filtered_df all_df [d0; d1]) as [df|e] eqn:E;
    [|rewrite filtered_df_range in E; discriminate].
  destruct df as [|r df]; [reflexivity|exfalso].
  assert (Hr : In r (r :: df)) by now left.
  apply (filtered_df_In _ _ _ _ r E) in Hr.
  destruct Hr as (Hin & t & Ht & H0 & H1).
  destruct H as [H|H].
  - unfold midnight, Pandas.ns_per_day in *. lia.
  - destruct (H r t Hin Ht); lia.
Qed.

(** C2, on the code: the review-score analysis of an empty table returns no
    histogram, it raises; here for a range whose start date is after its
    end date. *)
Lemma analyze_review_scores_empty_raises :
  let all_df := [order_line "o1" (Some (at_time jan_1 9 0)) (Some 1000) (Some 5)] in
  filtered_df all_df [jan_2; jan_1] = Ok []
  /\ analyze_review_scores [] = Raise ValueError
  /\ ~ exists top, analyze_review_scores [] = Ok ([], top).
Proof.
  repeat split; try reflexivity.
  intros [top H]. discriminate.
Qed.

(** C2, as the code has it: a range with the start date after the end date,
    or with every approval time stamp outside it, filters the table down to
    nothing; on the empty table the daily orders, the daily spending, the
    product sales, the state distribution and the per-category order counts
    are empty tables, while the review-score analysis raises [ValueError],
    which ends the render pass. *)
Theorem empty_selection_aggregates (all_df : list order_row) (d0 d1 : date) :
  (d1 < d0
   \/ forall r t, In r all_df -> order_approved_at r = Some t ->
                  t < midnight d0 \/ midnight d1 < t) ->
  filtered_df all_df [d0; d1] = Ok []
  /\ prepare_daily_orders [] = []
  /\ compute_total_spending [] = []
  /\ aggregate_products [] = []
  /\ customer_distribution_by_state [] = []
  /\ analyze_top_low_products [] = []
  /\ analyze_review_scores [] = Raise ValueError
  /\ render all_df [d0; d1] = Raise ValueError.
Proof.
  intros H. apply filtered_df_empty in H.
  repeat split; try reflexivity; try assumption.
  unfold render. now rewrite H.
Qed.

Lemma empty_selection_aggregates_witness :
  let all_df := [order_line "o1" (Some (at_time jan_1 9 0)) (Some 1000) (Some 5)] in
  jan_1 < jan_2 /\ render all_df [jan_2; jan_1] = Raise ValueError.
Proof.
  intros all_df. split; [reflexivity|].
  apply (empty_selection_aggregates all_df jan_2 jan_1).
  left. reflexivity.
Defined.

(** ** Daily resampling *)

Lemma dropna_In {A : Type} (s : list (option A)) (a : A) :
  In a (Pandas.dropna s) <-> In (Some a) s.
Proof.
  induction s as [|[x|] s IH]; simpl.
  - tauto.
  - rewrite IH. split; intros [H|H]; auto; left; congruence.
  - rewrite IH. split; [auto|]. intros [H|H]; [discriminate|assumption].
Qed.

Lemma fold_min_spec (ts : list Z) (t : Z) :
  In (fold_left Z.min ts t) (t :: ts)
  /\ forall x, In x (t :: ts) -> fold_left Z.min ts t <= x.
Proof.
  revert t. induction ts as [|u ts IH]; intros t; simpl.
  - split; [now left|]. intros x [<-|[]]. lia.
  - destruct (IH (Z.min t u)) as [Hin Hle]. split.
    + destruct Hin as [Heq|Hin]; [|now right; right].
      rewrite <- Heq. destruct (Z.min_spec t u) as [[_ ->]|[_ ->]]; auto.
    + intros x [<-|[<-|Hx]].
      * specialize (Hle (Z.min t u) (or_introl eq_refl)). lia.
      * specialize (Hle (Z.min t u) (or_introl eq_refl)). lia.
      * apply Hle. now right.
Qed.

Lemma fold_max_spec (ts : list Z) (t : Z) :
  In (fold_left Z.max ts t) (t :: ts)
  /\ forall x, In x (t :: ts) -> x <= fold_left Z.max ts t.
Proof.
  revert t. induction ts as [|u ts IH]; intros t; simpl.
  - split; [now left|]. intros x [<-|[]]. lia.
  - destruct (IH (Z.max t u)) as [Hin Hle]. split.
    + destruct Hin as [Heq|Hin]; [|now right; right].
      rewrite <- Heq. destruct (Z.max_spec t u) as [[_ ->]|[_ ->]]; auto.
    + intros x [<-|[<-|Hx]].
      * specialize (Hle (Z.max t u) (or_introl eq_refl)). lia.
      * specialize (Hle (Z.max t u) (or_introl eq_refl)). lia.
      * apply Hle. now right.
Qed.

Lemma normalize_midnight (t : Z) : Pandas.normalize t = midnight (day_of t).
Proof. reflexivity. Qed.

Lemma day_of_midnight (d : Z) : day_of (midnight d) = d.
Proof. unfold day_of, midnight. now apply Z.div_mul. Qed.

Lemma day_of_mono (t u : Z) : t <= u -> day_of t <= day_of u.
Proof. intros H. unfold day_of. now apply Z.div_le_mono. Qed.

Lemma in_bin_day (d t : Z) :
  Pandas.in_bin (midnight d) (Some t) = (day_of t =? d).
Proof.
  unfold Pandas.in_bin, midnight, day_of, Pandas.ns_per_day.
  apply eq_true_iff_eq.
  rewrite andb_true_iff, Z.leb_le, Z.ltb_lt, Z.eqb_eq.
  pose proof (Z.div_mod t 86400000000000 ltac:(lia)) as Hdm.
  pose proof (Z.mod_pos_bound t 86400000000000 ltac:(lia)) as Hb.
  lia.
Qed.

Lemma date_range_days (lo last : Z) :
  Pandas.date_range (midnight lo) last = map midnight (days lo (day_of last)).
Proof.
  unfold Pandas.date_range, days. rewrite map_map.
  replace ((last - midnight lo) / Pandas.ns_per_day + 1)
    with (day_of last - lo + 1).
  - apply map_ext. intros i. unfold midnight. lia.
  - unfold day_of, midnight.
    replace (last - lo * Pandas.ns_per_day)
      with (last + (- lo) * Pandas.ns_per_day) by lia.
    rewrite Z.div_add; [lia|]. unfold Pandas.ns_per_day. lia.
Qed.

Lemma days_In (lo hi d : Z) : In d (days lo hi) <-> lo <= d <= hi.
Proof.
  unfold days. rewrite in_map_iff. split.
  - intros (i & <- & Hi). apply in_seq in Hi. lia.
  - intros H. exists (Z.to_nat (d - lo)). split; [lia|].
    apply in_seq. lia.
Qed.

Lemma days_NoDup (lo hi : Z) : NoDup (days lo hi).
Proof.
  unfold days. generalize (Z.to_nat (hi - lo + 1)). intros n.
  generalize 0%nat. induction n as [|n IH]; intros s; simpl; constructor.
  - rewrite in_map_iff. intros (i & Heq & Hi). apply in_seq in Hi. lia.
  - apply IH.
Qed.

Lemma midnight_inj (d e : Z) : midnight d = midnight e -> d = e.
Proof. unfold midnight, Pandas.ns_per_day. lia. Qed.

(** The bins of a table: nothing when no row has a time stamp, otherwise one
    bin per day from the day of the earliest approval to the day of the
    latest one, holding the rows of that day. *)
Lemma resample_D_days (df : list order_row) :
  (Pandas.dropna (map order_approved_at df) = []
   /\ Pandas.resample_D order_approved_at df = [])
  \/ exists lo hi,
       (exists r, In r df /\ approved_on lo r = true)
       /\ (exists r, In r df /\ approved_on hi r = true)
       /\ (forall r t, In r df -> order_approved_at r = Some t ->
                       lo <= day_of t <= hi)
       /\ Pandas.resample_D order_approved_at df
          = map (fun d => (midnight d, rows_of_day d df)) (days lo hi).
Proof.
  unfold Pandas.resample_D.
  destruct (Pandas.dropna (map order_approved_at df)) as [|t ts] eqn:E;
    [now left|right].
  destruct (fold_min_spec ts t) as [Hmin_in Hmin].
  destruct (fold_max_spec ts t) as [Hmax_in Hmax].
  set (tmin := fold_left Z.min ts t) in *.
  set (tmax := fold_left Z.max ts t) in *.
  assert (Hrow : forall x, In x (t :: ts) <->
                           exists r, In r df /\ order_approved_at r = Some x).
  { intros x. rewrite <- E, dropna_In, in_map_iff. split.
    - intros (r & Hr & Hin). now exists r.
    - intros (r & Hin & Hr). now exists r. }
  exists (day_of tmin), (day_of tmax). repeat split.
  - apply Hrow in Hmin_in. destruct Hmin_in as (r & Hin & Hr).
    exists r. split; [assumption|]. unfold approved_on. rewrite Hr.
    apply Z.eqb_refl.
  - apply Hrow in Hmax_in. destruct Hmax_in as (r & Hin & Hr).
    exists r. split; [assumption|]. unfold approved_on. rewrite Hr.
    apply Z.eqb_refl.
  - apply day_of_mono, Hmin, Hrow. now exists r.
  - apply day_of_mono, Hmax, Hrow. now exists r.
  - cbv zeta. rewrite normalize_midnight, date_range_days, map_map.
    apply map_ext. intros d. cbn [fst snd]. f_equal.
    unfold rows_of_day. apply filter_ext. intros r. unfold approved_on.
    destruct (order_approved_at r) as [u|]; [apply in_bin_day|reflexivity].
Qed.

Lemma filter_none {A : Type} (f : A -> bool) (l : list A) :
  (forall x, In x l -> f x = false) -> filter f l = [].
Proof.
  induction l as [|x l IH]; simpl; intros H; [reflexivity|].
  rewrite (H x (or_introl eq_refl)). apply IH. intros y Hy. apply H. now right.
Qed.

Lemma compute_total_spending_days (df : list order_row) (lo hi : Z) :
  Pandas.resample_D order_approved_at df
  = map (fun d => (midnight d, rows_of_day d df)) (days lo hi) ->
  compute_total_spending df
  = map (fun d => {| Spending.order_approved_at := midnight d;
                     Spending.daily_spending := spending_of_day d df |})
      (days lo hi).
Proof.
  intros H. unfold compute_total_spending. rewrite H, map_map. reflexivity.
Qed.

Lemma prepare_daily_orders_days (df : list order_row) (lo hi : Z) :
  Pandas.resample_D order_approved_at df
  = map (fun d => (midnight d, rows_of_day d df)) (days lo hi) ->
  prepare_daily_orders df
  = map (fun d => {| Daily.order_approved_at := midnight d;
                     Daily.total_orders :=
                       distinct_order_ids (rows_of_day d df);
                     Daily.total_revenue := spending_of_day d df |})
      (days lo hi).
Proof.
  intros H. unfold prepare_daily_orders. rewrite H, map_map. reflexivity.
Qed.

Lemma midnight_days_NoDup (lo hi : Z) : NoDup (map midnight (days lo hi)).
Proof.
  assert (H := days_NoDup lo hi). induction H as [|d l Hout Hnd IH]; simpl.
  - constructor.
  - constructor; [|assumption].
    rewrite in_map_iff. intros (e & Heq & He).
    apply midnight_inj in Heq. now subst.
Qed.

(** ** Daily spending *)

(** C9: in the daily spending of a filtered table every row carries the
    midnight of a day and the sum of the payment values of the rows approved
    on that day; no day has two rows; every day on which a row was approved
    has its row.  Three orders of 10, 20 and 30 approved on one day give 60
    for that day. *)
Theorem compute_total_spending_sums_each_day :
  (forall (all_df df : list order_row) (d0 d1 : date),
      filtered_df all_df [d0; d1] = Ok df ->
      (forall e, In e (compute_total_spending df) ->
                 exists d, Spending.order_approved_at e = midnight d
                           /\ Spending.daily_spending e = spending_of_day d df)
      /\ NoDup (map Spending.order_approved_at (compute_total_spending df))
      /\ forall d,
           (exists r, In r df /\ approved_on d r = true) ->
           In {| Spending.order_approved_at := midnight d;
                 Spending.daily_spending := spending_of_day d df |}
             (compute_total_spending df))
  /\ compute_total_spending same_day_orders
     = [{| Spending.order_approved_at := midnight jan_1;
           Spending.daily_spending := 60 |}].
Proof.
  split; [|vm_compute; reflexivity].
  intros all_df df d0 d1 _.
  destruct (resample_D_days df) as [[Hnone Hres]|(lo & hi & _ & _ & Hspan & Hres)].
  - unfold compute_total_spending. rewrite Hres. simpl.
    repeat split; [intros e []|constructor|].
    intros d (r & Hin & Hr). exfalso.
    unfold approved_on in Hr.
    destruct (order_approved_at r) as [t|] eqn:Ht; [|discriminate].
    assert (Hd : In t (Pandas.dropna (map order_approved_at df))).
    { apply dropna_In. rewrite <- Ht. now apply in_map. }
    now rewrite Hnone in Hd.
  - rewrite (compute_total_spending_days df lo hi Hres). repeat split.
    + intros e He. apply in_map_iff in He. destruct He as (d & <- & _).
      now exists d.
    + rewrite map_map. apply midnight_days_NoDup.
    + intros d (r & Hin & Hr). apply in_map_iff. exists d.
      split; [reflexivity|]. apply days_In.
      unfold approved_on in Hr.
      destruct (order_approved_at r) as [t|] eqn:Ht; [|discriminate].
      apply Z.eqb_eq in Hr. subst d. now apply (Hspan r).
Qed.

Lemma compute_total_spending_sums_each_day_witness :
  In {| Spending.order_approved_at := midnight jan_1;
        Spending.daily_spending := spending_of_day jan_1 same_day_orders |}
    (compute_total_spending same_day_orders).
Proof.
  destruct compute_total_spending_sums_each_day as [H _].
  destruct (H same_day_orders same_day_orders jan_1 jan_2 eq_refl)
    as (_ & _ & Hin).
  apply Hin. exists (order_line "o1" (Some (at_time jan_1 9 0)) (Some 10) (Some 5)).
  split; [now left|reflexivity].
Defined.

(** ** Days without orders *)

(** C10: for a filtered table that is not empty there are a first day [lo]
    and a last day [hi] on which rows were approved, every row was approved
    between them, and both daily tables have exactly one row per day from
    [lo] to [hi], in order; a day of that span on which nothing was approved
    has its row, with 0 orders, 0 revenue and 0 spending. *)
Theorem daily_tables_have_no_gaps
  (all_df df : list order_row) (d0 d1 : date) :
  filtered_df all_df [d0; d1] = Ok df ->
  df <> [] ->
  exists lo hi,
    (exists r, In r df /\ approved_on lo r = true)
    /\ (exists r, In r df /\ approved_on hi r = true)
    /\ (forall r, In r df -> exists d, lo <= d <= hi /\ approved_on d r = true)
    /\ map Daily.order_approved_at (prepare_daily_orders df)
       = map midnight (days lo hi)
    /\ map Spending.order_approved_at (compute_total_spending df)
       = map midnight (days lo hi)
    /\ forall d,
         lo <= d <= hi ->
         (forall r, In r df -> approved_on d r = false) ->
         In {| Daily.order_approved_at := midnight d;
               Daily.total_orders := 0;
               Daily.total_revenue := 0 |} (prepare_daily_orders df)
         /\ In {| Spending.order_approved_at := midnight d;
                  Spending.daily_spending := 0 |} (compute_total_spending df).
Proof.
  intros Hf Hne.
  assert (Hts : forall r, In r df -> exists t, order_approved_at r = Some t).
  { intros r Hr. apply (filtered_df_In _ _ _ _ r Hf) in Hr.
    destruct Hr as (_ & t & Ht & _). now exists t. }
  destruct (resample_D_days df)
    as [[Hnone _]|(lo & hi & Hlo & Hhi & Hspan & Hres)].
  - exfalso. destruct df as [|r df]; [now apply Hne|].
    destruct (Hts r (or_introl eq_refl)) as [t Ht].
    simpl in Hnone. rewrite Ht in Hnone. discriminate.
  - exists lo, hi.
    split; [assumption|]. split; [assumption|].
    split; [|split; [|split]].
    + intros r Hr. destruct (Hts r Hr) as [t Ht]. exists (day_of t).
      split; [now apply (Hspan r)|].
      unfold approved_on. rewrite Ht. apply Z.eqb_refl.
    + rewrite (prepare_daily_orders_days df lo hi Hres), map_map. reflexivity.
    + rewrite (compute_total_spending_days df lo hi Hres), map_map. reflexivity.
    + intros d Hd Hnone.
      rewrite (prepare_daily_orders_days df lo hi Hres).
      rewrite (compute_total_spending_days df lo hi Hres).
      split; apply in_map_iff; exists d; (split; [|now apply days_In]);
        unfold distinct_order_ids, spending_of_day, rows_of_day;
        now rewrite (filter_none _ _ Hnone).
Qed.

Lemma daily_tables_have_no_gaps_witness :
  exists lo hi,
    map Daily.order_approved_at (prepare_daily_orders orders_with_gap)
    = map midnight (days lo hi)
    /\ In {| Daily.order_approved_at := midnight jan_2;
             Daily.total_orders := 0;
             Daily.total_revenue := 0 |} (prepare_daily_orders orders_with_gap).
Proof.
  destruct (daily_tables_have_no_gaps orders_with_gap orders_with_gap
              jan_1 jan_4 eq_refl ltac:(discriminate))
    as (lo & hi & _ & _ & _ & Hd & _ & _).
  exists lo, hi. split; [exact Hd|].
  vm_compute. right. now left.
Defined.

(** ** Distinct values and filters *)

Section Unique.
Context {K : Type}.
Variable K_dec : forall a b : K, {a = b} + {a <> b}.

Lemma keep_first_from_seen (seen seen' l : list K) :
  (forall x, In x l -> (In x seen <-> In x seen')) ->
  Pandas.keep_first_from K_dec (fun k => k) seen l = Pandas.keep_first_from K_dec (fun k => k) seen' l.
Proof.
  revert seen seen'.
  induction l as [|x l IH]; intros seen seen' H; simpl; [reflexivity|].
  destruct (in_dec K_dec x seen) as [Hin|Hout];
    destruct (in_dec K_dec x seen') as [Hin'|Hout'].
  - apply IH. intros y Hy. apply H. now right.
  - elim Hout'. apply (H x); [now left|assumption].
  - elim Hout. apply (H x); [now left|assumption].
  - f_equal. apply IH. intros y Hy. simpl.
    specialize (H y (or_intror Hy)). tauto.
Qed.

Lemma keep_first_from_filter (p : K -> bool) (seen l : list K) :
  Pandas.keep_first_from K_dec (fun k => k) seen (filter p l) = filter p (Pandas.keep_first_from K_dec (fun k => k) seen l).
Proof.
  revert seen.
  induction l as [|x l IH]; intros seen; simpl; [reflexivity|].
  destruct (p x) eqn:Hp; simpl.
  - destruct (in_dec K_dec x seen) as [Hin|Hout]; simpl.
    + apply IH.
    + rewrite Hp. f_equal. apply IH.
  - destruct (in_dec K_dec x seen) as [Hin|Hout]; simpl.
    + apply IH.
    + rewrite Hp, <- IH. apply keep_first_from_seen.
      intros y Hy. apply filter_In in Hy. destruct Hy as [_ Hy]. simpl.
      split; [now right|]. intros [<-|H]; [congruence|assumption].
Qed.

Lemma unique_filter (p : K -> bool) (l : list K) :
  Pandas.unique K_dec (filter p l) = filter p (Pandas.unique K_dec l).
Proof.
  unfold Pandas.unique. rewrite !drop_duplicates_keep_first.
  apply keep_first_from_filter.
Qed.

Lemma unique_split_length (p : K -> bool) (l : list K) :
  length (Pandas.unique K_dec l)
  = (length (Pandas.unique K_dec (filter p l))
     + length (Pandas.unique K_dec (filter (fun x => negb (p x)) l)))%nat.
Proof. rewrite !unique_filter. symmetry. apply filter_length. Qed.
End Unique.

(** ** Orders per day *)

Section SingleDay.
Variable df : list order_row.

(** Rows that share an order id were approved on the same day. *)
Hypothesis one_day :
  forall r1 r2 i d,
    In r1 df -> In r2 df ->
    order_id r1 = Some i -> order_id r2 = Some i ->
    approved_on d r1 = true -> approved_on d r2 = true.

Lemma approved_on_unique (d e : Z) (r : order_row) :
  approved_on d r = true -> approved_on e r = true -> d = e.
Proof.
  unfold approved_on. destruct (order_approved_at r); [|discriminate].
  rewrite !Z.eqb_eq. congruence.
Qed.

Lemma ordered_on_intro (d : Z) (r : order_row) (i : string) :
  In r df -> order_id r = Some i -> approved_on d r = true ->
  ordered_on d df i = true.
Proof.
  intros Hin Hid Hd. unfold ordered_on. apply existsb_exists.
  exists r. split; [assumption|]. rewrite Hd, Hid.
  now destruct (option_eq_dec string_dec (Some i) (Some i)).
Qed.

Lemma ordered_on_elim (d : Z) (r : order_row) (i : string) :
  In r df -> order_id r = Some i -> ordered_on d df i = true ->
  approved_on d r = true.
Proof.
  intros Hin Hid H. unfold ordered_on in H. apply existsb_exists in H.
  destruct H as (r2 & Hin2 & H). apply andb_true_iff in H.
  destruct H as [Hid2 Hd].
  destruct (option_eq_dec string_dec (order_id r2) (Some i)); [|discriminate].
  now apply (one_day r2 r i d).
Qed.


Lemma order_ids_of_day (d : Z) (ds : list Z) (l : list order_row) :
  ~ In d ds ->
  incl l df ->
  order_ids (rows_of_day d l)
  = filter (ordered_on d df) (order_ids (filter (approved_among (d :: ds)) l))
  /\ order_ids (filter (approved_among ds) l)
     = filter (fun i => negb (ordered_on d df i))
         (order_ids (filter (approved_among (d :: ds)) l)).
Proof.
  intros Hd. unfold order_ids, rows_of_day.
  induction l as [|r l IH]; intros Hl; [split; reflexivity|].
  assert (Hr : In r df) by (apply Hl; now left).
  assert (Hl' : incl l df) by (intros x Hx; apply Hl; now right).
  destruct (IH Hl') as [IHa IHb]. clear IH.
  cbn [filter approved_among existsb].
  fold (approved_among ds r).
  destruct (approved_on d r) eqn:Hon.
  - assert (Hds : approved_among ds r = false).
    { destruct (approved_among ds r) eqn:E; [|reflexivity].
      apply existsb_exists in E. destruct E as (e & He & Hre).
      elim Hd. now rewrite (approved_on_unique d e r Hon Hre). }
    rewrite Hds. cbn [orb map Pandas.dropna].
    destruct (order_id r) as [i|] eqn:Hid; cbn [filter].
    + rewrite (ordered_on_intro d r i Hr Hid Hon). cbn [negb].
      split; [now f_equal|assumption].
    + split; assumption.
  - cbn [orb]. destruct (approved_among ds r) eqn:Hds; [|now split].
    cbn [map Pandas.dropna].
    destruct (order_id r) as [i|] eqn:Hid; cbn [filter]; [|now split].
    destruct (ordered_on d df i) eqn:Ho.
    + rewrite (ordered_on_elim d r i Hr Hid Ho) in Hon. discriminate.
    + cbn [negb]. split; [assumption|now f_equal].
Qed.

Lemma distinct_order_ids_by_day (ds : list Z) :
  NoDup ds ->
  total (map (fun d => distinct_order_ids (rows_of_day d df)) ds)
  = distinct_order_ids (filter (approved_among ds) df).
Proof.
  induction 1 as [|d ds Hout Hnd IH]; cbn [map total fold_right].
  - unfold approved_among. cbn [existsb].
    now rewrite (filter_none (fun _ => false) df).
  - fold (total (map (fun d => distinct_order_ids (rows_of_day d df)) ds)).
    rewrite IH.
    destruct (order_ids_of_day d ds df Hout (incl_refl df)) as [Ha Hb].
    unfold distinct_order_ids, Pandas.nunique.
    fold (order_ids (rows_of_day d df)).
    fold (order_ids (filter (approved_among ds) df)).
    fold (order_ids (filter (approved_among (d :: ds)) df)).
    rewrite Ha, Hb. symmetry. apply unique_split_length.
Qed.
End SingleDay.

(** C1, on the code: an order id whose lines were approved on two days is
    counted on both days, so the daily counts add up to 2 for a table with
    1 distinct order id. *)
Lemma daily_orders_total_counts_order_twice :
  order_over_two_days <> []
  /\ total (map Daily.total_orders (prepare_daily_orders order_over_two_days))
     = 2%nat
  /\ distinct_order_ids order_over_two_days = 1%nat
  /\ total (map Daily.total_orders (prepare_daily_orders order_over_two_days))
     <> distinct_order_ids order_over_two_days.
Proof. repeat split; try discriminate; vm_compute; reflexivity. Qed.

(** C1, as the code has it: for a table that is not empty, whose rows all
    have an approval time stamp and in which rows sharing an order id were
    approved on the same day, the distinct order-id counts of the daily
    orders add up to the number of distinct order ids of the table. *)
Theorem daily_orders_total_is_distinct_orders (df : list order_row) :
  df <> [] ->
  (forall r, In r df -> order_approved_at r <> None) ->
  (forall r1 r2 i d,
      In r1 df -> In r2 df ->
      order_id r1 = Some i -> order_id r2 = Some i ->
      approved_on d r1 = true -> approved_on d r2 = true) ->
  total (map Daily.total_orders (prepare_daily_orders df))
  = distinct_order_ids df.
Proof.
  intros Hne Hts Hone.
  destruct (resample_D_days df)
    as [[Hnone _]|(lo & hi & _ & _ & Hspan & Hres)].
  - exfalso. destruct df as [|r df]; [now apply Hne|].
    specialize (Hts r (or_introl eq_refl)). simpl in Hnone.
    destruct (order_approved_at r); [discriminate|now apply Hts].
  - rewrite (prepare_daily_orders_days df lo hi Hres), map_map.
    cbn [Daily.total_orders].
    rewrite (distinct_order_ids_by_day df Hone (days lo hi) (days_NoDup lo hi)).
    f_equal. apply forallb_filter_id. apply forallb_forall. intros r Hr.
    unfold approved_among. apply existsb_exists.
    specialize (Hts r Hr).
    destruct (order_approved_at r) as [t|] eqn:Ht; [|now elim Hts].
    exists (day_of t). split.
    + apply days_In. now apply (Hspan r).
    + unfold approved_on. rewrite Ht. apply Z.eqb_refl.
Qed.

Lemma daily_orders_total_is_distinct_orders_witness :
  total (map Daily.total_orders (prepare_daily_orders orders_with_gap))
  = distinct_order_ids orders_with_gap.
Proof.
  apply daily_orders_total_is_distinct_orders.
  - discriminate.
  - intros r [<-|[<-|[]]]; discriminate.
  - intros r1 r2 i d [<-|[<-|[]]] [<-|[<-|[]]] H1 H2;
      solve [trivial | inversion H1; subst; discriminate].
Defined.

(** ** Sorting by decreasing count *)

Section SortDesc.
Context {K : Type}.
Implicit Types (e m : K * nat) (s t : list (K * nat)).

Lemma insert_desc_In e m s :
  In e (Pandas.insert_desc m s) <-> e = m \/ In e s.
Proof.
  induction s as [|h t IH]; simpl.
  - split; intros [H|H]; auto.
  - destruct (snd h <=? snd m)%nat; simpl.
    + split; intros [H|H]; auto.
    + rewrite IH. split; intros H; intuition auto.
Qed.

Lemma sort_values_desc_In e s :
  In e (Pandas.sort_values_desc s) <-> In e s.
Proof.
  induction s as [|h t IH]; simpl; [tauto|].
  rewrite insert_desc_In, IH. split; intros [H|H]; auto.
Qed.

Lemma argmax_from_head m s :
  (forall e, In e s -> (snd e <= snd m)%nat) ->
  Pandas.argmax_from m s = m.
Proof.
  induction s as [|h t IH]; intros H; simpl; [reflexivity|].
  assert (Hh : (snd h <= snd m)%nat) by (apply H; now left).
  apply Nat.ltb_ge in Hh. rewrite Hh. apply IH.
  intros e He. apply H. now right.
Qed.
End SortDesc.

Section UniqueIn.
Context {K : Type}.
Variable K_dec : forall a b : K, {a = b} + {a <> b}.

Lemma keep_first_from_id_In (seen l : list K) (x : K) :
  In x (Pandas.keep_first_from K_dec (fun k => k) seen l)
  <-> In x l /\ ~ In x seen.
Proof.
  split; [apply (keep_first_from_In K_dec (fun k => k))|].
  revert seen. induction l as [|y l IH]; intros seen [Hin Hout]; simpl.
  - destruct Hin.
  - destruct (in_dec K_dec y seen) as [Hy|Hy].
    + apply IH. split; [|assumption].
      destruct Hin as [->|Hin]; [contradiction|assumption].
    + destruct (K_dec y x) as [->|Hne]; [now left|].
      right. apply IH. split.
      * destruct Hin as [->|Hin]; [contradiction|assumption].
      * intros [H|H]; auto.
Qed.

Lemma unique_In (l : list K) (x : K) :
  In x (Pandas.unique K_dec l) <-> In x l.
Proof.
  unfold Pandas.unique. rewrite drop_duplicates_keep_first.
  rewrite keep_first_from_id_In. simpl. tauto.
Qed.

End UniqueIn.

(** ** The review-score mode *)

Lemma value_counts_scores (df : list order_row) :
  Pandas.value_counts Z.eq_dec (map review_score df)
  = Pandas.sort_values_desc
      (map (fun s => (s, score_count df s)) (Pandas.unique Z.eq_dec (scores df))).
Proof. reflexivity. Qed.

(** C5, on the code: a table that is not empty and has no review score
    gets no mode, the analysis raises. *)
Lemma analyze_review_scores_unreviewed_raises :
  unreviewed_order <> []
  /\ analyze_review_scores unreviewed_order = Raise ValueError
  /\ ~ exists hist mode, analyze_review_scores unreviewed_order = Ok (hist, mode).
Proof.
  repeat split; try discriminate.
  intros (hist & mode & H). discriminate.
Qed.

(** * Further properties of the script *)

(** ** Insertion sort *)

Section SortBy.
Context {A : Type}.
Variable before : A -> A -> bool.

Lemma insert_by_perm (e : A) (s : list A) :
  Permutation (Pandas.insert_by before e s) (e :: s).
Proof.
  induction s as [|h t IH]; simpl; [reflexivity|].
  destruct (before e h); [reflexivity|].
  rewrite IH. apply perm_swap.
Qed.

Lemma sort_by_perm (s : list A) : Permutation (Pandas.sort_by before s) s.
Proof.
  induction s as [|h t IH]; simpl; [reflexivity|].
  rewrite insert_by_perm. now apply perm_skip.
Qed.

Hypothesis before_total : forall a b, before a b = false -> before b a = true.

Lemma insert_by_sorted (e : A) (s : list A) :
  Sorted (fun a b => before a b = true) s ->
  Sorted (fun a b => before a b = true) (Pandas.insert_by before e s).
Proof.
  induction s as [|h t IH]; simpl; intros Hs.
  - repeat constructor.
  - destruct (before e h) eqn:E.
    + constructor; [assumption|]. now constructor.
    + inversion Hs as [|? ? Ht Hhd]; subst.
      constructor; [now apply IH|].
      destruct t as [|h' t']; simpl.
      * constructor. now apply before_total.
      * destruct (before e h'); constructor.
        -- now apply before_total.
        -- now inversion Hhd.
Qed.

Lemma sort_by_sorted (s : list A) :
  Sorted (fun a b => before a b = true) (Pandas.sort_by before s).
Proof.
  induction s as [|h t IH]; simpl; [constructor|].
  now apply insert_by_sorted.
Qed.
End SortBy.

Lemma insert_desc_by {K : Type} (e : K * nat) (s : list (K * nat)) :
  Pandas.insert_desc e s
  = Pandas.insert_by (fun e h => (snd h <=? snd e)%nat) e s.
Proof. induction s as [|h t IH]; simpl; [reflexivity|now rewrite IH]. Qed.

Lemma sort_values_desc_by {K : Type} (s : list (K * nat)) :
  Pandas.sort_values_desc s
  = Pandas.sort_by (fun e h => (snd h <=? snd e)%nat) s.
Proof.
  induction s as [|h t IH]; simpl; [reflexivity|].
  now rewrite insert_desc_by, IH.
Qed.

Lemma sort_values_desc_perm {K : Type} (s : list (K * nat)) :
  Permutation (Pandas.sort_values_desc s) s.
Proof. rewrite sort_values_desc_by. apply sort_by_perm. Qed.

Lemma sort_values_desc_descending {K : Type} (s : list (K * nat)) :
  descending (Pandas.sort_values_desc s).
Proof.
  unfold descending. rewrite sort_values_desc_by.
  apply Sorted_StronglySorted.
  - intros a b c Hab Hbc. lia.
  - eapply Sorted_ind
      with (P := fun l => Sorted (fun a b => (snd b <= snd a)%nat) l);
      [constructor| |apply (sort_by_sorted (fun e h => (snd h <=? snd e)%nat))].
    + intros a l _ IH Hhd. constructor; [assumption|].
      destruct Hhd as [|b l Hab]; constructor. now apply Nat.leb_le.
    + intros a b Hab. apply Nat.leb_gt in Hab. apply Nat.leb_le. lia.
Qed.

Lemma sort_values_asc_perm {K : Type} (s : list (K * nat)) :
  Permutation (Pandas.sort_values_asc s) s.
Proof. apply sort_by_perm. Qed.

Lemma sort_values_asc_ascending {K : Type} (s : list (K * nat)) :
  ascending (Pandas.sort_values_asc s).
Proof.
  unfold ascending, Pandas.sort_values_asc.
  apply Sorted_StronglySorted.
  - intros a b c Hab Hbc. lia.
  - eapply Sorted_ind
      with (P := fun l => Sorted (fun a b => (snd a <= snd b)%nat) l);
      [constructor| |apply (sort_by_sorted (fun e h => (snd e <=? snd h)%nat))].
    + intros a l _ IH Hhd. constructor; [assumption|].
      destruct Hhd as [|b l Hab]; constructor. now apply Nat.leb_le.
    + intros a b Hab. apply Nat.leb_gt in Hab. apply Nat.leb_le. lia.
Qed.

Lemma insert_key_by (k : string) (s : list string) :
  Pandas.insert_key k s = Pandas.insert_by String.leb k s.
Proof. induction s as [|h t IH]; simpl; [reflexivity|now rewrite IH]. Qed.

Lemma sort_keys_by (s : list string) :
  Pandas.sort_keys s = Pandas.sort_by String.leb s.
Proof.
  induction s as [|h t IH]; simpl; [reflexivity|].
  now rewrite insert_key_by, IH.
Qed.

Lemma sort_keys_perm (s : list string) : Permutation (Pandas.sort_keys s) s.
Proof. rewrite sort_keys_by. apply sort_by_perm. Qed.

Lemma sort_keys_alphabetical (s : list string) :
  alphabetical (Pandas.sort_keys s).
Proof.
  unfold alphabetical. rewrite sort_keys_by. apply sort_by_sorted.
  intros a b H. destruct (String.leb_total a b) as [E|E]; congruence.
Qed.

Lemma strongly_sorted_head_rest {A : Type} (R : A -> A -> Prop) (n : nat)
  (l : list A) (a b : A) :
  StronglySorted R l -> In a (firstn n l) -> In b (skipn n l) -> R a b.
Proof.
  intros Hs. revert n. induction Hs as [|x l Hl IH Hx]; intros n Ha Hb.
  - now rewrite firstn_nil in Ha.
  - destruct n as [|n]; simpl in *; [destruct Ha|].
    destruct Ha as [<-|Ha].
    + rewrite Forall_forall in Hx. apply Hx.
      rewrite <- (firstn_skipn n l). apply in_or_app. now right.
    + now apply (IH n).
Qed.

(** ** Groups *)

Lemma total_app (l1 l2 : list nat) :
  total (l1 ++ l2) = (total l1 + total l2)%nat.
Proof. induction l1 as [|x l IH]; simpl; [reflexivity|]. rewrite IH. lia. Qed.

Lemma total_perm (l1 l2 : list nat) :
  Permutation l1 l2 -> total l1 = total l2.
Proof. induction 1; simpl; lia. Qed.

Lemma total_count_occ {K : Type} (K_dec : forall a b : K, {a = b} + {a <> b})
  (ks l : list K) :
  NoDup ks -> incl l ks ->
  total (map (fun k => count_occ K_dec l k) ks) = length l.
Proof.
  intros Hnd. induction l as [|x l IH]; intros Hl.
  - clear Hnd Hl. induction ks as [|k ks IHk]; simpl; [reflexivity|].
    exact IHk.
  - assert (Hx : In x ks) by (apply Hl; now left).
    assert (Hl' : incl l ks) by (intros y Hy; apply Hl; now right).
    specialize (IH Hl'). simpl length. rewrite <- IH. clear IH Hl Hl'.
    induction Hnd as [|k ks Hout Hnd IHk]; [destruct Hx|].
    cbn [map total fold_right].
    fold (total (map (fun k => count_occ K_dec (x :: l) k) ks)).
    fold (total (map (fun k => count_occ K_dec l k) ks)).
    destruct Hx as [->|Hx].
    + rewrite count_occ_cons_eq by reflexivity.
      assert (E : map (fun k => count_occ K_dec (x :: l) k) ks
                  = map (fun k => count_occ K_dec l k) ks).
      { apply map_ext_in. intros k Hk. apply count_occ_cons_neq.
        intros ->. contradiction. }
      rewrite E. lia.
    + rewrite count_occ_cons_neq by (intros ->; contradiction).
      rewrite (IHk Hx). lia.
Qed.

Lemma dropna_length {A : Type} (s : list (option A)) :
  length (Pandas.dropna s) = length (filter notnull s).
Proof.
  induction s as [|[a|] s IH]; simpl; [reflexivity| |assumption].
  now rewrite IH.
Qed.

Section Groups.
Context {A C : Type}.
Variable by_ : A -> option string.
Variable col : A -> option C.

Lemma groupby_groups (df : list A) :
  Pandas.groupby by_ df
  = map (fun k => (k, group_rows by_ k df))
      (Pandas.sort_keys (Pandas.unique string_dec (keys_of by_ df))).
Proof. reflexivity. Qed.

Lemma keys_of_In (df : list A) (k : string) :
  In k (keys_of by_ df) <-> exists r, In r df /\ by_ r = Some k.
Proof.
  unfold keys_of. rewrite dropna_In, in_map_iff. split.
  - intros (r & Hr & Hin). now exists r.
  - intros (r & Hin & Hr). now exists r.
Qed.

Lemma group_keys_In (df : list A) (k : string) :
  In k (Pandas.sort_keys (Pandas.unique string_dec (keys_of by_ df)))
  <-> exists r, In r df /\ by_ r = Some k.
Proof.
  rewrite <- keys_of_In. split.
  - intros H. apply (proj1 (unique_In string_dec _ k)).
    eapply Permutation_in; [apply sort_keys_perm|exact H].
  - intros H. apply (proj2 (unique_In string_dec _ k)) in H.
    eapply Permutation_in; [symmetry; apply sort_keys_perm|exact H].
Qed.

Lemma unique_NoDup {K : Type} (K_dec : forall a b : K, {a = b} + {a <> b})
  (l : list K) : NoDup (Pandas.unique K_dec l).
Proof.
  unfold Pandas.unique. rewrite drop_duplicates_keep_first.
  rewrite <- (map_id (Pandas.keep_first_from _ _ _ _)).
  apply keep_first_from_NoDup.
Qed.

Lemma group_keys_NoDup (df : list A) :
  NoDup (Pandas.sort_keys (Pandas.unique string_dec (keys_of by_ df))).
Proof.
  apply (Permutation_NoDup (l := Pandas.unique string_dec (keys_of by_ df))).
  - symmetry. apply sort_keys_perm.
  - apply unique_NoDup.
Qed.

(** The present cells of [col] in the group of [k], counted on the keys of
    the rows where [col] is present. *)
Lemma group_count (df : list A) (k : string) :
  Pandas.count (map col (group_rows by_ k df))
  = count_occ string_dec (keys_of by_ (filter (fun r => notnull (col r)) df)) k.
Proof.
  unfold Pandas.count, group_rows, keys_of.
  induction df as [|r df IH]; [reflexivity|].
  cbn [filter map].
  destruct (col r) as [c|] eqn:Hc; cbn [notnull map Pandas.dropna].
  - destruct (by_ r) as [k'|] eqn:Hk.
    + cbn [Pandas.dropna count_occ].
      destruct (option_eq_dec string_dec (Some k') (Some k)) as [E|E].
      * inversion E; subst k'. cbn [map Pandas.dropna]. rewrite Hc.
        cbn [Pandas.dropna length].
        destruct (string_dec k k); [now rewrite IH|contradiction].
      * destruct (string_dec k' k) as [->|_]; [now elim E|exact IH].
    + destruct (option_eq_dec string_dec None (Some k)); [discriminate|].
      exact IH.
  - destruct (option_eq_dec string_dec (by_ r) (Some k)); [|exact IH].
    cbn [map Pandas.dropna]. rewrite Hc. exact IH.
Qed.

Lemma group_counts_total (df : list A) :
  total (map (fun k => Pandas.count (map col (group_rows by_ k df)))
           (Pandas.sort_keys (Pandas.unique string_dec (keys_of by_ df))))
  = length (both_present by_ col df).
Proof.
  rewrite (map_ext _ _ (group_count df)).
  rewrite total_count_occ.
  - unfold keys_of, both_present. rewrite dropna_length.
    induction df as [|r df IH]; [reflexivity|].
    cbn [filter map].
    destruct (col r) as [c|]; destruct (by_ r) as [k|] eqn:Hk;
      cbn [notnull andb map filter]; rewrite ?Hk;
      cbn [notnull filter length]; now rewrite ?IH.
  - apply group_keys_NoDup.
  - intros k Hk. apply group_keys_In. apply keys_of_In in Hk.
    destruct Hk as (r & Hr & Hk). apply filter_In in Hr. exists r. tauto.
Qed.
End Groups.

Lemma count_present {A C : Type} (col : A -> option C) (df : list A) :
  Pandas.count (map col df) = present_in col df.
Proof.
  unfold Pandas.count, present_in.
  induction df as [|r df IH]; simpl; [reflexivity|].
  destruct (col r); simpl; now rewrite IH.
Qed.

Lemma group_table_In {A : Type} (by_ : A -> option string)
  (f : list A -> nat) (df : list A) (k : string) (n : nat) :
  In (k, n) (map (fun g => (fst g, f (snd g))) (Pandas.groupby by_ df))
  <-> (exists r, In r df /\ by_ r = Some k) /\ n = f (group_rows by_ k df).
Proof.
  rewrite groupby_groups, map_map. cbn [fst snd].
  rewrite in_map_iff, <- group_keys_In. split.
  - intros (k' & Heq & Hk'). inversion Heq; subst. auto.
  - intros (Hk & ->). now exists k.
Qed.

Lemma group_table_keys {A : Type} (by_ : A -> option string)
  (f : list A -> nat) (df : list A) :
  map fst (map (fun g => (fst g, f (snd g))) (Pandas.groupby by_ df))
  = Pandas.sort_keys (Pandas.unique string_dec (keys_of by_ df)).
Proof.
  rewrite groupby_groups, !map_map. cbn [fst]. apply map_id.
Qed.

(** ** Product sales *)

(** X1: the product sales have one row per category met in the table, no
    category twice; the row of a category holds the number of its rows with
    a product id; and the counts never increase down the table.  Rows
    without a category are in no group. *)
Theorem aggregate_products_rows (df : list order_row) :
  (forall k n,
      In (k, n) (aggregate_products df) <->
      (exists r, In r df /\ product_category_name_english r = Some k)
      /\ n = present_in product_id
               (group_rows product_category_name_english k df))
  /\ NoDup (map fst (aggregate_products df))
  /\ descending (aggregate_products df).
Proof.
  unfold aggregate_products. split; [|split].
  - intros k n. rewrite sort_values_desc_In.
    rewrite (group_table_In product_category_name_english
               (fun g => Pandas.count (map product_id g))).
    now rewrite count_present.
  - eapply Permutation_NoDup.
    + apply Permutation_map. symmetry. apply sort_values_desc_perm.
    + rewrite (group_table_keys product_category_name_english
                 (fun g => Pandas.count (map product_id g))).
      apply group_keys_NoDup.
  - apply sort_values_desc_descending.
Qed.

(** X2: the counts of the product sales add up to the number of rows that
    have both a category and a product id. *)
Theorem aggregate_products_total (df : list order_row) :
  total (map snd (aggregate_products df))
  = length (both_present product_category_name_english product_id df).
Proof.
  unfold aggregate_products.
  rewrite (total_perm _ _ (Permutation_map snd (sort_values_desc_perm _))).
  rewrite groupby_groups, !map_map. cbn [fst snd].
  apply (group_counts_total product_category_name_english product_id).
Qed.

(** ** Orders per category *)

(** X3: the per-category order counts have one row per category met in the
    table, in increasing order of the category names and without
    repetition; the row of a category holds the number of its rows with an
    order id, and the counts add up to the number of rows that have both a
    category and an order id. *)
Theorem analyze_top_low_products_rows (df : list order_row) :
  (forall k n,
      In (k, n) (analyze_top_low_products df) <->
      (exists r, In r df /\ product_category_name_english r = Some k)
      /\ n = present_in order_id
               (group_rows product_category_name_english k df))
  /\ alphabetical (map fst (analyze_top_low_products df))
  /\ NoDup (map fst (analyze_top_low_products df))
  /\ total (map snd (analyze_top_low_products df))
     = length (both_present product_category_name_english order_id df).
Proof.
  unfold analyze_top_low_products.
  rewrite (group_table_keys product_category_name_english
             (fun g => Pandas.count (map order_id g))).
  split; [|split; [|split]].
  - intros k n.
    rewrite (group_table_In product_category_name_english
               (fun g => Pandas.count (map order_id g))).
    now rewrite count_present.
  - apply sort_keys_alphabetical.
  - apply group_keys_NoDup.
  - rewrite groupby_groups, !map_map. cbn [fst snd].
    apply (group_counts_total product_category_name_english order_id).
Qed.

(** X4: on a table where every row has a product id exactly when it has an
    order id, the product sales are the per-category order counts sorted by
    decreasing count. *)
Theorem aggregate_products_sorts_order_counts (df : list order_row) :
  (forall r, In r df -> notnull (product_id r) = notnull (order_id r)) ->
  aggregate_products df
  = Pandas.sort_values_desc (analyze_top_low_products df).
Proof.
  intros H. unfold aggregate_products, analyze_top_low_products. f_equal.
  rewrite groupby_groups, !map_map. cbn [fst snd].
  apply map_ext. intros k. f_equal. rewrite !count_present.
  unfold present_in, group_rows. f_equal. apply filter_ext_in.
  intros r Hr. apply filter_In in Hr. apply H. tauto.
Qed.

Lemma aggregate_products_sorts_order_counts_witness :
  aggregate_products same_day_orders
  = Pandas.sort_values_desc (analyze_top_low_products same_day_orders).
Proof.
  apply aggregate_products_sorts_order_counts.
  intros r [<-|[<-|[<-|[]]]]; reflexivity.
Defined.

(** ** Customers per state *)

(** X5: the state distribution has one row per state met in the table, no
    state twice; the row of a state holds the number of distinct customer
    ids among its rows; and the counts never increase down the table. *)
Theorem customer_distribution_by_state_rows (df : list order_row) :
  (forall k n,
      In (k, n) (customer_distribution_by_state df) <->
      (exists r, In r df /\ customer_state r = Some k)
      /\ n = Pandas.nunique string_dec
               (map customer_id (group_rows customer_state k df)))
  /\ NoDup (map fst (customer_distribution_by_state df))
  /\ descending (customer_distribution_by_state df).
Proof.
  unfold customer_distribution_by_state. split; [|split].
  - intros k n. rewrite sort_values_desc_In.
    apply (group_table_In customer_state
             (fun g => Pandas.nunique string_dec (map customer_id g))).
  - eapply Permutation_NoDup.
    + apply Permutation_map. symmetry. apply sort_values_desc_perm.
    + rewrite (group_table_keys customer_state
                 (fun g => Pandas.nunique string_dec (map customer_id g))).
      apply group_keys_NoDup.
  - apply sort_values_desc_descending.
Qed.

(** ** The rows and colours of the bar charts *)

(** X6: the best sellers chart shows the first five product sales, and no
    category left out of it has more sales than a category shown; so does
    the state chart with the first ten states. *)
Theorem top_rows_are_largest (df : list order_row) :
  (forall a b,
      In a (top_products (aggregate_products df)) ->
      In b (skipn 5 (aggregate_products df)) ->
      (snd b <= snd a)%nat)
  /\ (forall a b,
        In a (top_states (customer_distribution_by_state df)) ->
        In b (skipn 10 (customer_distribution_by_state df)) ->
        (snd b <= snd a)%nat).
Proof.
  split; intros a b Ha Hb.
  - apply (strongly_sorted_head_rest (fun a b => (snd b <= snd a)%nat) 5
             (aggregate_products df) a b);
      [apply sort_values_desc_descending|assumption|assumption].
  - apply (strongly_sorted_head_rest (fun a b => (snd b <= snd a)%nat) 10
             (customer_distribution_by_state df) a b);
      [apply sort_values_desc_descending|assumption|assumption].
Qed.

Lemma top_rows_are_largest_witness :
  In ("toys"%string, 2%nat) (top_products (aggregate_products six_categories))
  /\ In ("pets"%string, 1%nat) (skipn 5 (aggregate_products six_categories))
  /\ (1 <= 2)%nat.
Proof.
  assert (Ha : In ("toys"%string, 2%nat)
                 (top_products (aggregate_products six_categories)))
    by (vm_compute; now left).
  assert (Hb : In ("pets"%string, 1%nat)
                 (skipn 5 (aggregate_products six_categories)))
    by (vm_compute; now left).
  repeat split; [assumption|assumption|].
  exact (proj1 (top_rows_are_largest six_categories) _ _ Ha Hb).
Defined.

(** X7: the worst sellers chart shows five rows of the table sorted by
    increasing count: its rows and the rows left out are together the rows
    of the table, and no row left out has a smaller count than a row
    shown. *)
Theorem low_products_are_smallest (items : list (string * nat)) :
  Permutation
    (low_products items ++ skipn 5 (Pandas.sort_values_asc items)) items
  /\ forall a b,
       In a (low_products items) ->
       In b (skipn 5 (Pandas.sort_values_asc items)) ->
       (snd a <= snd b)%nat.
Proof.
  unfold low_products, Pandas.head. split.
  - rewrite firstn_skipn. apply sort_values_asc_perm.
  - intros a b Ha Hb.
    apply (strongly_sorted_head_rest (fun a b => (snd a <= snd b)%nat) 5
             (Pandas.sort_values_asc items) a b);
      [apply sort_values_asc_ascending|assumption|assumption].
Qed.

Lemma low_products_are_smallest_witness :
  let items := analyze_top_low_products six_categories in
  In ("auto"%string, 1%nat) (low_products items)
  /\ In ("toys"%string, 2%nat) (skipn 5 (Pandas.sort_values_asc items))
  /\ (1 <= 2)%nat.
Proof.
  intros items.
  assert (Ha : In ("auto"%string, 1%nat) (low_products items))
    by (vm_compute; now left).
  assert (Hb : In ("toys"%string, 2%nat)
                 (skipn 5 (Pandas.sort_values_asc items)))
    by (vm_compute; now left).
  repeat split; [assumption|assumption|].
  exact (proj2 (low_products_are_smallest items) _ _ Ha Hb).
Defined.

(** X8: both bar charts get one highlight colour followed by grey ones, as
    many colours as rows when there is a row, and one colour for no row
    when the table is empty. *)
Theorem chart_colors_match_rows :
  (forall sales : list (string * nat),
      top_colors sales
      = "#72BCD4"%string
        :: repeat "#D3D3D3"%string (length (top_products sales) - 1)
      /\ length (top_colors sales) = Nat.max 1 (length (top_products sales)))
  /\ (forall items : list (string * nat),
        low_colors items
        = "#FF6F61"%string
          :: repeat "#D3D3D3"%string (length (low_products items) - 1)
        /\ length (low_colors items) = Nat.max 1 (length (low_products items))).
Proof.
  split.
  - intros sales. unfold top_colors, top_products, len, list_mul.
    assert (E : Z.to_nat (Z.of_nat (length (Pandas.head 5 sales)) - 1)
                = (length (Pandas.head 5 sales) - 1)%nat) by lia.
    rewrite E. split; [reflexivity|].
    cbn [length]. rewrite repeat_length. lia.
  - intros items. unfold low_colors, low_products, len, list_mul.
    assert (L : length (Pandas.tail 5 items)
                = length (Pandas.head 5 (Pandas.sort_values_asc items))).
    { unfold Pandas.tail, Pandas.head.
      rewrite length_skipn, length_firstn.
      rewrite (Permutation_length (sort_values_asc_perm items)). lia. }
    rewrite L.
    assert (E : Z.to_nat
                  (Z.of_nat
                     (length (Pandas.head 5 (Pandas.sort_values_asc items))) - 1)
                = (length (Pandas.head 5 (Pandas.sort_values_asc items)) - 1)%nat)
      by lia.
    rewrite E. split; [reflexivity|].
    cbn [length]. rewrite repeat_length. lia.
Qed.

(** ** The review-score histogram *)

Lemma analyze_review_scores_Ok (df : list order_row) (hist : list (Z * nat))
  (top : Z) :
  analyze_review_scores df = Ok (hist, top) ->
  hist = Pandas.sort_values_desc
           (Pandas.value_counts Z.eq_dec (map review_score df))
  /\ exists c t, hist = (top, c) :: t.
Proof.
  unfold analyze_review_scores.
  assert (Hd := sort_values_desc_descending
                  (Pandas.value_counts Z.eq_dec (map review_score df))).
  destruct (Pandas.sort_values_desc
              (Pandas.value_counts Z.eq_dec (map review_score df)))
    as [|[s c] t]; cbn [Pandas.idxmax bind]; [discriminate|].
  intros H. inversion H; subst. split; [reflexivity|].
  exists c, t. apply StronglySorted_inv in Hd. destruct Hd as [_ Hd].
  rewrite argmax_from_head; [reflexivity|].
  intros e He. rewrite Forall_forall in Hd. now apply Hd.
Qed.

Lemma histogram_perm (df : list order_row) :
  Permutation
    (Pandas.sort_values_desc
       (Pandas.value_counts Z.eq_dec (map review_score df)))
    (map (fun s => (s, score_count df s)) (Pandas.unique Z.eq_dec (scores df))).
Proof.
  rewrite sort_values_desc_perm, value_counts_scores.
  apply sort_values_desc_perm.
Qed.

Lemma histogram_NoDup (df : list order_row) :
  NoDup (map fst (Pandas.sort_values_desc
                    (Pandas.value_counts Z.eq_dec (map review_score df)))).
Proof.
  eapply Permutation_NoDup.
  - apply Permutation_map. symmetry. apply histogram_perm.
  - rewrite map_map. cbn [fst]. rewrite map_id. apply unique_NoDup.
Qed.

Lemma histogram_nonempty (df : list order_row) :
  scores df <> [] ->
  Pandas.sort_values_desc (Pandas.value_counts Z.eq_dec (map review_score df))
  <> [].
Proof.
  intros Hne E. destruct (scores df) as [|s l] eqn:Es; [now apply Hne|].
  assert (Hin : In (s, score_count df s)
                  (Pandas.sort_values_desc
                     (Pandas.value_counts Z.eq_dec (map review_score df)))).
  { eapply Permutation_in; [symmetry; apply histogram_perm|].
    apply in_map_iff. exists s. split; [reflexivity|].
    apply (proj2 (unique_In Z.eq_dec _ _)). rewrite Es. now left. }
  now rewrite E in Hin.
Qed.

(** C5, as the code has it: for a filtered table with at least one review
    score the analysis returns a histogram and a mode; the histogram holds
    each score of the table with its number of rows; no score has more rows
    than the mode; and the mode is the first row of the histogram, so among
    the scores with the largest count it is the one the histogram has
    first.  Which of them the sort puts first is not stated. *)
Theorem analyze_review_scores_mode (df : list order_row) :
  (exists r s, In r df /\ review_score r = Some s) ->
  exists hist mode,
    analyze_review_scores df = Ok (hist, mode)
    /\ (forall s c, In (s, c) hist <-> In s (scores df) /\ c = score_count df s)
    /\ (forall s, (score_count df s <= score_count df mode)%nat)
    /\ hd_error hist = Some (mode, score_count df mode).
Proof.
  intros (r & s0 & Hr & Hs0).
  assert (Hne : scores df <> []).
  { intros E. assert (H : In s0 (scores df)).
    { unfold scores. apply dropna_In. rewrite <- Hs0. now apply in_map. }
    now rewrite E in H. }
  destruct (analyze_review_scores df) as [[hist mode]|e] eqn:E.
  - exists hist, mode. split; [reflexivity|].
    destruct (analyze_review_scores_Ok df hist mode E) as (Eh & c & t & Eht).
    assert (Hmem : forall s n,
               In (s, n) hist <-> In s (scores df) /\ n = score_count df s).
    { intros s n. rewrite Eh. split.
      - intros H. apply (Permutation_in _ (histogram_perm df)) in H.
        apply in_map_iff in H. destruct H as (s' & Heq & Hs').
        inversion Heq; subst.
        split; [exact (proj1 (unique_In Z.eq_dec _ _) Hs')|reflexivity].
      - intros (Hs & ->).
        apply (Permutation_in _ (Permutation_sym (histogram_perm df))).
        apply in_map_iff. exists s.
        split; [reflexivity|exact (proj2 (unique_In Z.eq_dec _ _) Hs)]. }
    assert (Hc : c = score_count df mode).
    { apply (Hmem mode c). rewrite Eht. now left. }
    subst c. split; [exact Hmem|]. split; [|now rewrite Eht].
    intros s. destruct (in_dec Z.eq_dec s (scores df)) as [Hin|Hout].
    + assert (He : In (s, score_count df s) hist) by (apply Hmem; auto).
      assert (Hd : descending hist)
        by (rewrite Eh; apply sort_values_desc_descending).
      rewrite Eht in He, Hd. destruct He as [He|He].
      * injection He as Hm _. subst s. apply Nat.le_refl.
      * apply StronglySorted_inv in Hd. destruct Hd as [_ Hd].
        rewrite Forall_forall in Hd. exact (Hd _ He).
    + unfold score_count at 1.
      rewrite (proj1 (count_occ_not_In Z.eq_dec (scores df) s) Hout). lia.
  - exfalso. apply histogram_nonempty in Hne.
    unfold analyze_review_scores in E.
    destruct (Pandas.sort_values_desc
                (Pandas.value_counts Z.eq_dec (map review_score df)));
      [now apply Hne|discriminate].
Qed.

Lemma analyze_review_scores_mode_witness :
  exists hist mode,
    analyze_review_scores tied_reviews = Ok (hist, mode)
    /\ hd_error hist = Some (mode, 2%nat).
Proof.
  destruct (analyze_review_scores_mode tied_reviews)
    as (hist & mode & H & Hmem & _ & Hhd).
  - exists (order_line "o1" (Some (at_time jan_1 9 0)) (Some 10) (Some 4)), 4.
    split; [now left|reflexivity].
  - exists hist, mode. split; [exact H|]. rewrite Hhd. do 2 f_equal.
    assert (Hin : In (mode, score_count tied_reviews mode) hist).
    { destruct hist as [|e t]; [discriminate|].
      injection Hhd as ->. now left. }
    apply Hmem in Hin. destruct Hin as [Hin _].
    destruct Hin as [<-|[<-|[<-|[<-|[]]]]]; reflexivity.
Defined.

(** X9: the review-score analysis raises [ValueError] exactly when no row of
    the table has a review score, an empty table included. *)
Theorem analyze_review_scores_raises_iff (df : list order_row) :
  analyze_review_scores df = Raise ValueError <-> scores df = [].
Proof.
  split.
  - intros H. destruct (scores df) as [|s l] eqn:E; [reflexivity|exfalso].
    assert (Hne : scores df <> []) by (rewrite E; discriminate).
    apply histogram_nonempty in Hne. unfold analyze_review_scores in H.
    destruct (Pandas.sort_values_desc
                (Pandas.value_counts Z.eq_dec (map review_score df)));
      [now apply Hne|discriminate].
  - intros E. unfold analyze_review_scores.
    rewrite value_counts_scores, E. reflexivity.
Qed.

(** X10: in a histogram the analysis returns, every score of the table has
    one row, no score has two; the counts are positive, never increase down
    the table and add up to the number of rows with a review score. *)
Theorem analyze_review_scores_histogram (df : list order_row)
  (hist : list (Z * nat)) (top : Z) :
  analyze_review_scores df = Ok (hist, top) ->
  NoDup (map fst hist)
  /\ descending hist
  /\ (forall s c, In (s, c) hist -> (0 < c)%nat)
  /\ total (map snd hist) = length (scores df).
Proof.
  intros H. apply analyze_review_scores_Ok in H. destruct H as [-> _].
  assert (Hp := histogram_perm df).
  split; [|split; [|split]].
  - apply histogram_NoDup.
  - apply sort_values_desc_descending.
  - intros s c Hin. apply (Permutation_in _ Hp) in Hin.
    apply in_map_iff in Hin. destruct Hin as (s' & Heq & Hs').
    inversion Heq; subst. unfold score_count.
    apply count_occ_In. exact (proj1 (unique_In Z.eq_dec _ _) Hs').
  - rewrite (total_perm _ _ (Permutation_map snd Hp)), map_map. cbn [snd].
    apply total_count_occ; [apply unique_NoDup|].
    intros s Hs. exact (proj2 (unique_In Z.eq_dec _ _) Hs).
Qed.

Lemma analyze_review_scores_histogram_witness :
  total (map snd [(4, 2%nat); (5, 2%nat)]) = length (scores tied_reviews).
Proof.
  apply (analyze_review_scores_histogram tied_reviews [(4, 2%nat); (5, 2%nat)] 4).
  vm_compute. reflexivity.
Defined.

(** X11: the palette of the rating chart made from the result of the
    analysis highlights the first bar, which is the bar of the mode, and no
    other bar. *)
Theorem review_palette_highlights_mode (df : list order_row)
  (hist : list (Z * nat)) (top : Z) :
  analyze_review_scores df = Ok (hist, top) ->
  review_palette hist top
  = "#068DA9"%string :: repeat "#D3D3D3"%string (length hist - 1).
Proof.
  intros H. assert (Hnd := histogram_NoDup df).
  apply analyze_review_scores_Ok in H. destruct H as (E & c & t & ->).
  rewrite <- E in Hnd. clear E.
  unfold review_palette. cbn [map fst length]. rewrite Z.eqb_refl. f_equal.
  replace (S (length t) - 1)%nat with (length t) by lia.
  cbn [map fst] in Hnd. inversion Hnd as [|? ? Hout _]; subst. clear Hnd.
  induction t as [|[s n] t IH]; [reflexivity|].
  cbn [map fst length repeat]. cbn [map fst] in Hout.
  destruct (Z.eqb_spec s top) as [->|_]; [elim Hout; now left|].
  f_equal. apply IH. intros Hin. apply Hout. now right.
Qed.

Lemma review_palette_highlights_mode_witness :
  review_palette [(4, 2%nat); (5, 2%nat)] 4
  = ["#068DA9"%string; "#D3D3D3"%string].
Proof.
  apply (review_palette_highlights_mode tied_reviews [(4, 2%nat); (5, 2%nat)] 4).
  vm_compute. reflexivity.
Defined.

(** ** The selected dates *)

(** X12: the filter raises [IndexError] exactly when fewer than two dates
    are selected, and dates after the second one are not read. *)
Theorem filtered_df_needs_two_dates (all_df : list order_row) :
  (forall date_range,
      filtered_df all_df date_range = Raise IndexError
      <-> (length date_range < 2)%nat)
  /\ forall d0 d1 rest,
       filtered_df all_df (d0 :: d1 :: rest) = filtered_df all_df [d0; d1].
Proof.
  split; [|reflexivity].
  intros [|d0 [|d1 rest]]; cbn; split; intros H; try reflexivity; try lia.
  discriminate.
Qed.

Lemma day_of_bounds (t d : Z) :
  day_of t = d <-> midnight d <= t < midnight d + Pandas.ns_per_day.
Proof.
  pose proof (in_bin_day d t) as H. unfold Pandas.in_bin in H.
  split.
  - intros E. apply Z.eqb_eq in E. rewrite <- H in E.
    apply andb_true_iff in E. rewrite Z.leb_le, Z.ltb_lt in E. exact E.
  - intros E. apply Z.eqb_eq. rewrite <- H.
    apply andb_true_iff. now rewrite Z.leb_le, Z.ltb_lt.
Qed.

(** X13: of the rows of the table the filter keeps those approved on a day
    from the start date to the day before the end date, all of them, and of
    the rows approved on the end date only those approved at midnight; it
    keeps no row approved on another day and no row without an approval
    time stamp. *)
Theorem filtered_df_days (all_df df : list order_row) (d0 d1 : date) :
  filtered_df all_df [d0; d1] = Ok df ->
  (forall r d, In r all_df -> approved_on d r = true -> d0 <= d < d1 ->
               In r df)
  /\ (forall r, In r df ->
                In r all_df
                /\ exists d, approved_on d r = true /\ d0 <= d <= d1)
  /\ (forall r, In r all_df -> approved_on d1 r = true ->
                (In r df <-> d0 <= d1 /\ order_approved_at r = Some (midnight d1))).
Proof.
  intros Hf. split; [|split].
  - intros r d Hin Hd Hrange. apply (filtered_df_In _ _ _ _ r Hf).
    split; [assumption|]. unfold approved_on in Hd.
    destruct (order_approved_at r) as [t|]; [|discriminate].
    exists t. split; [reflexivity|].
    apply Z.eqb_eq, day_of_bounds in Hd.
    unfold midnight, Pandas.ns_per_day in *. lia.
  - intros r Hr. apply (filtered_df_In _ _ _ _ r Hf) in Hr.
    destruct Hr as (Hin & t & Ht & H0 & H1). split; [assumption|].
    exists (day_of t). split.
    + unfold approved_on. rewrite Ht. apply Z.eqb_refl.
    + apply day_of_mono in H0, H1. now rewrite !day_of_midnight in *.
  - intros r Hin Hd. rewrite (filtered_df_In _ _ _ _ r Hf).
    unfold approved_on in Hd.
    destruct (order_approved_at r) as [t|]; [|discriminate].
    apply Z.eqb_eq, day_of_bounds in Hd. split.
    + intros (_ & t' & Heq & H0 & H1). inversion Heq; subst t'. split.
      * unfold midnight, Pandas.ns_per_day in *. lia.
      * f_equal. lia.
    + intros (Hle & Heq). inversion Heq; subst t. split; [assumption|].
      exists (midnight d1). split; [reflexivity|].
      unfold midnight, Pandas.ns_per_day in *. lia.
Qed.

Lemma filtered_df_days_witness :
  filtered_df same_day_orders [jan_1; jan_2] = Ok same_day_orders
  /\ In (order_line "o1" (Some (at_time jan_1 9 0)) (Some 10) (Some 5))
       same_day_orders.
Proof.
  split; [reflexivity|].
  destruct (filtered_df_days same_day_orders same_day_orders jan_1 jan_2 eq_refl)
    as (Hkeep & _).
  apply (Hkeep _ jan_1); [now left|reflexivity|].
  unfold jan_1, jan_2. lia.
Defined.

(** X14: filtering a filtered table again is filtering the full table once
    with the later start date and the earlier end date; with the same dates
    it changes nothing. *)
Theorem filtered_df_twice (all_df df : list order_row) (d0 d1 e0 e1 : date) :
  filtered_df all_df [d0; d1] = Ok df ->
  filtered_df df [e0; e1] = filtered_df all_df [Z.max d0 e0; Z.min d1 e1]
  /\ filtered_df df [d0; d1] = Ok df.
Proof.
  rewrite !filtered_df_range. intros H. inversion H; subst; clear H.
  assert (E : forall a0 a1 b0 b1,
             Z.max d0 a0 = b0 -> Z.min d1 a1 = b1 ->
             filter
               (fun r =>
                  ge_ts (order_approved_at r) (Timestamp_of_str a0)
                  && le_ts (order_approved_at r) (Timestamp_of_str a1))
               (filter
                  (fun r =>
                     ge_ts (order_approved_at r) (Timestamp_of_str d0)
                     && le_ts (order_approved_at r) (Timestamp_of_str d1))
                  all_df)
             = filter
                 (fun r =>
                    ge_ts (order_approved_at r) (Timestamp_of_str b0)
                    && le_ts (order_approved_at r) (Timestamp_of_str b1))
                 all_df).
  { intros a0 a1 b0 b1 H0 H1. subst b0 b1.
    induction all_df as [|r l IH]; [reflexivity|].
    cbn [filter].
    assert (Hr : ge_ts (order_approved_at r) (Timestamp_of_str (Z.max d0 a0))
                 && le_ts (order_approved_at r) (Timestamp_of_str (Z.min d1 a1))
                 = (ge_ts (order_approved_at r) (Timestamp_of_str d0)
                    && le_ts (order_approved_at r) (Timestamp_of_str d1))
                   && (ge_ts (order_approved_at r) (Timestamp_of_str a0)
                       && le_ts (order_approved_at r) (Timestamp_of_str a1))).
    { unfold ge_ts, le_ts, Timestamp_of_str, Pandas.ns_per_day.
      destruct (order_approved_at r) as [t|]; [|reflexivity].
      apply eq_true_iff_eq. rewrite !andb_true_iff, !Z.leb_le. lia. }
    rewrite Hr.
    destruct (ge_ts (order_approved_at r) (Timestamp_of_str d0)
              && le_ts (order_approved_at r) (Timestamp_of_str d1));
      cbn [filter andb]; [|assumption].
    destruct (ge_ts (order_approved_at r) (Timestamp_of_str a0)
              && le_ts (order_approved_at r) (Timestamp_of_str a1));
      [now f_equal|assumption]. }
  split; f_equal.
  - now apply E.
  - rewrite (E d0 d1 d0 d1); [reflexivity|lia|lia].
Qed.

Lemma filtered_df_twice_witness :
  filtered_df same_day_orders [jan_1; jan_2] = Ok same_day_orders.
Proof.
  apply (filtered_df_twice same_day_orders same_day_orders
           jan_1 jan_2 jan_1 jan_2 eq_refl).
Defined.

(** ** The render pass *)

(** X15: a render pass with fewer than two selected dates raises
    [IndexError]; with two dates it raises [ValueError] when no row of the
    filtered table has a review score; otherwise it returns, and each of its
    aggregates is the aggregation of the filtered table. *)
Theorem render_outcome (all_df : list order_row) (date_range : list date) :
  ((length date_range < 2)%nat -> render all_df date_range = Raise IndexError)
  /\ forall d0 d1 rest df,
       date_range = d0 :: d1 :: rest ->
       filtered_df all_df [d0; d1] = Ok df ->
       (scores df = [] -> render all_df date_range = Raise ValueError)
       /\ (scores df <> [] ->
           exists hist top,
             analyze_review_scores df = Ok (hist, top)
             /\ render all_df date_range
                = Ok {| daily_orders := prepare_daily_orders df;
                        daily_spending := compute_total_spending df;
                        product_sales := aggregate_products df;
                        customer_states := customer_distribution_by_state df;
                        review_stats := hist;
                        top_review := top;
                        sum_order_items_df := analyze_top_low_products df |}).
Proof.
  split.
  - intros H. destruct date_range as [|d0 [|d1 rest]]; simpl in H;
      try reflexivity; lia.
  - intros d0 d1 rest df -> Hf.
    unfold render.
    change (filtered_df all_df (d0 :: d1 :: rest))
      with (filtered_df all_df [d0; d1]).
    rewrite Hf. cbn [bind]. split.
    + intros Hs.
      assert (E : analyze_review_scores df = Raise ValueError).
      { unfold analyze_review_scores. rewrite value_counts_scores, Hs.
        reflexivity. }
      now rewrite E.
    + intros Hs. destruct (analyze_review_scores df) as [[hist top]|e] eqn:E.
      * exists hist, top. split; reflexivity.
      * exfalso. apply histogram_nonempty in Hs.
        unfold analyze_review_scores in E.
        destruct (Pandas.sort_values_desc
                    (Pandas.value_counts Z.eq_dec (map review_score df)));
          [now apply Hs|discriminate].
Qed.

Lemma render_outcome_witness :
  render same_day_orders [jan_1] = Raise IndexError.
Proof.
  apply (render_outcome same_day_orders [jan_1]). simpl. lia.
Defined.

(** ** Totals over the days *)

Lemma approved_among_span (df : list order_row) (lo hi : Z) :
  (forall r, In r df -> order_approved_at r <> None) ->
  (forall r t, In r df -> order_approved_at r = Some t -> lo <= day_of t <= hi) ->
  filter (approved_among (days lo hi)) df = df.
Proof.
  intros Hts Hspan. apply forallb_filter_id, forallb_forall. intros r Hr.
  unfold approved_among. apply existsb_exists.
  specialize (Hts r Hr).
  destruct (order_approved_at r) as [t|] eqn:Ht; [|now elim Hts].
  exists (day_of t). split.
  - apply days_In. now apply (Hspan r).
  - unfold approved_on. rewrite Ht. apply Z.eqb_refl.
Qed.

Lemma filtered_df_approved (all_df df : list order_row) (d0 d1 : date) :
  filtered_df all_df [d0; d1] = Ok df ->
  forall r, In r df -> order_approved_at r <> None.
Proof.
  intros Hf r Hr. apply (filtered_df_In _ _ _ _ r Hf) in Hr.
  destruct Hr as (_ & t & -> & _). discriminate.
Qed.


Lemma order_ids_In (df : list order_row) (i : string) :
  In i (order_ids df) <-> exists r, In r df /\ order_id r = Some i.
Proof.
  unfold order_ids. rewrite dropna_In, in_map_iff. split.
  - intros (r & Hr & Hin). now exists r.
  - intros (r & Hin & Hr). now exists r.
Qed.

Lemma distinct_order_ids_le_by_day (df : list order_row) (ds : list Z) :
  (distinct_order_ids (filter (approved_among ds) df)
   <= total (map (fun d => distinct_order_ids (rows_of_day d df)) ds))%nat.
Proof.
  induction ds as [|d ds IH]; cbn [map total fold_right].
  - unfold approved_among. cbn [existsb].
    now rewrite (filter_none (fun _ => false) df).
  - fold (total (map (fun d => distinct_order_ids (rows_of_day d df)) ds)).
    eapply Nat.le_trans; [|apply Nat.add_le_mono_l, IH].
    unfold distinct_order_ids, Pandas.nunique.
    fold (order_ids (rows_of_day d df)).
    fold (order_ids (filter (approved_among ds) df)).
    fold (order_ids (filter (approved_among (d :: ds)) df)).
    rewrite <- length_app. apply NoDup_incl_length; [apply unique_NoDup|].
    intros i Hi. apply (proj1 (unique_In string_dec _ _)) in Hi.
    apply order_ids_In in Hi. destruct Hi as (r & Hr & Hid).
    apply filter_In in Hr. destruct Hr as [Hin Hr].
    cbn [approved_among existsb] in Hr. apply orb_true_iff in Hr.
    apply in_or_app. destruct Hr as [Hr|Hr]; [left|right];
      apply (proj2 (unique_In string_dec _ _)), order_ids_In; exists r;
      (split; [|assumption]); apply filter_In; split; assumption.
Qed.

(** X17: for a filtered table the daily distinct-order counts add up to at
    least the number of distinct order ids of the table: every order is
    counted on each day on which one of its lines was approved. *)
Theorem daily_orders_total_at_least_distinct
  (all_df df : list order_row) (d0 d1 : date) :
  filtered_df all_df [d0; d1] = Ok df ->
  (distinct_order_ids df
   <= total (map Daily.total_orders (prepare_daily_orders df)))%nat.
Proof.
  intros Hf. assert (Hts := filtered_df_approved _ _ _ _ Hf).
  destruct (resample_D_days df)
    as [[Hnone Hres]|(lo & hi & _ & _ & Hspan & Hres)].
  - assert (E : df = []).
    { destruct df as [|r df]; [reflexivity|exfalso].
      specialize (Hts r (or_introl eq_refl)). simpl in Hnone.
      destruct (order_approved_at r); [discriminate|now apply Hts]. }
    subst df. apply Nat.le_refl.
  - rewrite (prepare_daily_orders_days df lo hi Hres), map_map.
    cbn [Daily.total_orders].
    rewrite <- (approved_among_span df lo hi Hts Hspan) at 1.
    apply distinct_order_ids_le_by_day.
Qed.

Lemma daily_orders_total_at_least_distinct_witness :
  (distinct_order_ids order_over_two_days
   <= total (map Daily.total_orders (prepare_daily_orders order_over_two_days)))%nat.
Proof.
  apply (daily_orders_total_at_least_distinct order_over_two_days
           order_over_two_days jan_1 jan_3 eq_refl).
Defined.

(** ** The map of the customers *)

Lemma customers_gdf_app (l1 l2 : list joined_row) :
  customers_gdf (l1 ++ l2) = customers_gdf l1 ++ customers_gdf l2.
Proof. unfold customers_gdf, with_geometry. now rewrite map_app, filter_app. Qed.

Lemma customers_gdf_filter (customers_df : list joined_row) :
  customers_gdf customers_df
  = map (fun x => (x, Some (mkPoint (geolocation_lng (snd x))
                              (geolocation_lat (snd x)))))
      (filter (fun x => notnull (geolocation_lng (snd x))) customers_df).
Proof.
  induction customers_df as [|x l IH]; [reflexivity|].
  change (customers_gdf (x :: l)) with (customers_gdf ([x] ++ l)).
  rewrite customers_gdf_app, IH. cbn [filter].
  unfold customers_gdf, with_geometry, geometry_of. cbn [map filter snd].
  destruct (geolocation_lng (snd x)) eqn:E; cbn [notnull map app];
    rewrite ?E; reflexivity.
Qed.

(** X18: the GeoDataFrame holds the joined rows that have a longitude, in
    their order, each with the point of its longitude and latitude; a row
    without longitude is never in it, and no row of it lacks a geometry. *)
Theorem customers_gdf_rows (customers_df : list joined_row) :
  customers_gdf customers_df
  = map (fun x => (x, Some (mkPoint (geolocation_lng (snd x))
                              (geolocation_lat (snd x)))))
      (filter (fun x => notnull (geolocation_lng (snd x))) customers_df)
  /\ (forall x p, In (x, p) (customers_gdf customers_df) ->
                  geolocation_lng (snd x) <> None /\ p <> None).
Proof.
  split; [apply customers_gdf_filter|].
  intros x p H. apply customers_gdf_In in H. destruct H as (_ & Hlng & ->).
  split; [assumption|discriminate].
Qed.

Lemma filter_find_unique {A K : Type}
  (K_dec : forall a b : K, {a = b} + {a <> b}) (key : A -> K) (k : K)
  (l : list A) :
  NoDup (map key l) ->
  filter (has_key K_dec key k) l
  = match find (has_key K_dec key k) l with
    | Some g => [g]
    | None => []
    end.
Proof.
  induction l as [|x l IH]; intros Hnd; [reflexivity|].
  inversion Hnd as [|? ? Hout Hnd']; subst. cbn [filter find].
  destruct (has_key K_dec key k x) eqn:Hx; [|now apply IH].
  f_equal. apply filter_none. intros y Hy. unfold has_key in *.
  destruct (K_dec (key x) k) as [Hk|]; [|discriminate].
  destruct (K_dec (key y) k) as [Hk'|]; [|reflexivity].
  elim Hout. rewrite Hk, <- Hk'. now apply in_map.
Qed.

Lemma matches_load_geolocation (c : order_row)
  (geolocation_df : list geolocation_row) :
  matches c (load_geolocation geolocation_df)
  = match first_with_prefix (customer_zip_code_prefix c) geolocation_df with
    | Some g => [g]
    | None => []
    end.
Proof.
  transitivity
    (filter (has_key zip_dec geolocation_zip_code_prefix
               (customer_zip_code_prefix c))
       (load_geolocation geolocation_df)).
  - unfold matches, Pandas.matching. apply filter_ext. intros g.
    unfold has_key.
    destruct (zip_dec (customer_zip_code_prefix c) (geolocation_zip_code_prefix g));
      destruct (zip_dec (geolocation_zip_code_prefix g) (customer_zip_code_prefix c));
      congruence.
  - rewrite filter_find_unique by apply load_geolocation_NoDup.
    unfold first_with_prefix, load_geolocation.
    rewrite drop_duplicates_keep_first, keep_first_from_find. reflexivity.
Qed.

(** X19: with the de-duplicated geolocation table, the customer rows on the
    map are the customer rows whose zip-code prefix has a first geolocation
    row with a longitude, in their order and each one once. *)
Theorem customers_on_map (customers_df : list order_row)
  (geolocation_df : list geolocation_row) :
  map customer_of
    (customers_gdf
       (merge_customer_geolocation customers_df
          (load_geolocation geolocation_df)))
  = filter (located geolocation_df) customers_df.
Proof.
  induction customers_df as [|c cs IH]; [reflexivity|].
  rewrite merge_cons, customers_gdf_app, map_app, IH.
  rewrite matches_load_geolocation. cbn [filter]. unfold located at 2.
  destruct (first_with_prefix (customer_zip_code_prefix c) geolocation_df)
    as [g|]; [|reflexivity].
  rewrite customers_gdf_filter. cbn [map filter snd].
  destruct (notnull (geolocation_lng g)); reflexivity.
Qed.

(** X20: when no geolocation row has a longitude, the geolocation table
    being empty for one, the join still keeps every customer row and the map
    gets no row. *)
Theorem customers_gdf_without_longitudes (customers_df : list order_row)
  (geolocation_df : list geolocation_row) :
  (forall g, In g geolocation_df -> geolocation_lng g = None) ->
  customers_gdf (merge_customer_geolocation customers_df geolocation_df) = [].
Proof.
  intros H. rewrite customers_gdf_filter.
  rewrite filter_none; [reflexivity|].
  intros [c g] Hin. apply merge_In in Hin. cbn [snd].
  destruct Hin as [_ [Hg|[_ ->]]]; [|reflexivity].
  apply filter_In in Hg. now rewrite (H g (proj1 Hg)).
Qed.

Lemma customers_gdf_without_longitudes_witness :
  customers_gdf (merge_customer_geolocation same_day_orders []) = [].
Proof.
  apply customers_gdf_without_longitudes. intros g [].
Defined.

(** ** De-duplication, again *)

Lemma keep_first_from_NoDup_id {A K : Type}
  (K_dec : forall a b : K, {a = b} + {a <> b}) (key : A -> K)
  (seen : list K) (df : list A) :
  NoDup (map key df) ->
  (forall r, In r df -> ~ In (key r) seen) ->
  Pandas.keep_first_from K_dec key seen df = df.
Proof.
  revert seen. induction df as [|x l IH]; intros seen Hnd Hseen;
    [reflexivity|].
  inversion Hnd as [|? ? Hout Hnd']; subst. cbn [Pandas.keep_first_from].
  destruct (in_dec K_dec (key x) seen) as [Hin|_].
  - elim (Hseen x (or_introl eq_refl) Hin).
  - f_equal. apply IH; [assumption|].
    intros r Hr [Heq|Hin].
    + apply Hout. rewrite Heq. now apply in_map.
    + apply (Hseen r (or_intror Hr) Hin).
Qed.

(** X21: loading a geolocation table returns it unchanged exactly when no
    two of its rows share a zip-code prefix; otherwise the result is
    shorter. *)
Theorem load_geolocation_unchanged_iff (df : list geolocation_row) :
  (load_geolocation df = df <-> NoDup (map geolocation_zip_code_prefix df))
  /\ (length (load_geolocation df) <= length df)%nat.
Proof.
  split.
  - split.
    + intros E. rewrite <- E. apply load_geolocation_NoDup.
    + intros Hnd. unfold load_geolocation.
      rewrite drop_duplicates_keep_first.
      apply keep_first_from_NoDup_id; [assumption|]. intros r _ [].
  - unfold load_geolocation. rewrite drop_duplicates_keep_first.
    generalize (@nil (option Z)).
    induction df as [|x l IH]; intros seen; cbn [Pandas.keep_first_from];
      [apply Nat.le_refl|].
    destruct (in_dec zip_dec (geolocation_zip_code_prefix x) seen);
      cbn [length]; [|apply le_n_S]; rewrite IH; lia.
Qed.

(** ** Sorting the orders *)

Lemma filter_partition_perm {A : Type} (f : A -> bool) (l : list A) :
  Permutation (filter f l ++ filter (fun x => negb (f x)) l) l.
Proof.
  induction l as [|x l IH]; [reflexivity|].
  cbn [filter]. destruct (f x); cbn [negb app].
  - now apply perm_skip.
  - symmetry. apply Permutation_cons_app. now symmetry.
Qed.

Lemma dropna_app {A : Type} (s1 s2 : list (option A)) :
  Pandas.dropna (s1 ++ s2) = Pandas.dropna s1 ++ Pandas.dropna s2.
Proof.
  induction s1 as [|[a|] s IH]; simpl; [reflexivity| |assumption].
  now rewrite IH.
Qed.

Lemma earlier_total (a b : order_row) :
  Pandas.earlier order_approved_at a b = false ->
  Pandas.earlier order_approved_at b a = true.
Proof.
  unfold Pandas.earlier.
  destruct (order_approved_at a), (order_approved_at b); try discriminate.
  rewrite Z.leb_gt, Z.leb_le. lia.
Qed.

Lemma sorted_approval_times (l : list order_row) :
  Forall (fun r => order_approved_at r <> None) l ->
  Sorted (fun a b => Pandas.earlier order_approved_at a b = true) l ->
  Sorted Z.le (approval_times l).
Proof.
  unfold approval_times.
  induction l as [|a l IH]; intros Hts Hs; [constructor|].
  inversion Hts as [|? ? Ha Hl]; subst. inversion Hs as [|? ? Hs' Hhd]; subst.
  destruct (order_approved_at a) as [x|] eqn:Ea; [|now elim Ha].
  cbn [map Pandas.dropna]. rewrite Ea. constructor; [now apply IH|].
  destruct l as [|b l]; [constructor|].
  inversion Hl as [|? ? Hb _]; subst.
  destruct (order_approved_at b) as [y|] eqn:Eb; [|now elim Hb].
  cbn [map Pandas.dropna]. rewrite Eb. constructor.
  inversion Hhd as [|? ? Hab]; subst. unfold Pandas.earlier in Hab.
  rewrite Ea, Eb in Hab. now apply Z.leb_le.
Qed.

(** X22: loading the orders only reorders the rows: the result has the rows
    of the table, each as often as the table has it; first come the rows
    with an approval time stamp, by increasing time stamp, then the rows
    without one. *)
Theorem load_data_sorted (df : list order_row) :
  Permutation (load_data df) df
  /\ StronglySorted Z.le (approval_times (load_data df))
  /\ exists timed untimed,
       load_data df = timed ++ untimed
       /\ Forall (fun r => order_approved_at r <> None) timed
       /\ Forall (fun r => order_approved_at r = None) untimed.
Proof.
  unfold load_data, Pandas.sort_values_by.
  set (timed := filter (fun r => notnull (order_approved_at r)) df).
  set (untimed := filter (fun r => negb (notnull (order_approved_at r))) df).
  assert (Ht : Forall (fun r => order_approved_at r <> None)
                 (Pandas.sort_by (Pandas.earlier order_approved_at) timed)).
  { apply Forall_forall. intros r Hr.
    apply (Permutation_in _ (sort_by_perm _ timed)) in Hr.
    apply filter_In in Hr. destruct Hr as [_ Hr].
    destruct (order_approved_at r); [discriminate|discriminate]. }
  assert (Hu : Forall (fun r => order_approved_at r = None) untimed).
  { apply Forall_forall. intros r Hr. apply filter_In in Hr.
    destruct Hr as [_ Hr]. destruct (order_approved_at r);
      [discriminate|reflexivity]. }
  split; [|split].
  - rewrite (sort_by_perm _ timed). apply filter_partition_perm.
  - unfold approval_times. rewrite map_app, dropna_app.
    assert (E : Pandas.dropna (map order_approved_at untimed) = []).
    { clear -Hu. induction Hu as [|r l Hr _ IH]; [reflexivity|].
      cbn [map Pandas.dropna]. now rewrite Hr. }
    rewrite E, app_nil_r. apply Sorted_StronglySorted.
    + intros x y z. apply Z.le_trans.
    + apply sorted_approval_times; [assumption|].
      apply sort_by_sorted, earlier_total.
  - exists (Pandas.sort_by (Pandas.earlier order_approved_at) timed), untimed.
    repeat split; assumption.
Qed.

(** ** Row order and the daily tables *)

Lemma filter_perm {A : Type} (f : A -> bool) (l l' : list A) :
  Permutation l l' -> Permutation (filter f l) (filter f l').
Proof.
  induction 1 as [|x l l' _ IH|x y l|l l' l'' _ IH1 _ IH2]; cbn [filter].
  - constructor.
  - destruct (f x); [now apply perm_skip|assumption].
  - destruct (f x), (f y); try reflexivity. apply perm_swap.
  - now transitivity (filter f l').
Qed.

Lemma dropna_perm {A : Type} (s s' : list (option A)) :
  Permutation s s' -> Permutation (Pandas.dropna s) (Pandas.dropna s').
Proof.
  induction 1 as [|x l l' _ IH|x y l|l l' l'' _ IH1 _ IH2].
  - constructor.
  - destruct x; cbn [Pandas.dropna]; [now apply perm_skip|assumption].
  - destruct x, y; cbn [Pandas.dropna]; try reflexivity. apply perm_swap.
  - now transitivity (Pandas.dropna l').
Qed.

Lemma nunique_perm {K : Type} (K_dec : forall a b : K, {a = b} + {a <> b})
  (s s' : list (option K)) :
  Permutation s s' -> Pandas.nunique K_dec s = Pandas.nunique K_dec s'.
Proof.
  intros H. unfold Pandas.nunique. apply Permutation_length.
  apply NoDup_Permutation; try apply unique_NoDup.
  intros k. rewrite !unique_In. apply dropna_perm in H. split.
  - apply Permutation_in. exact H.
  - apply Permutation_in. symmetry. exact H.
Qed.

Lemma resample_D_perm (df df' : list order_row) :
  Permutation df df' ->
  exists ds,
    Pandas.resample_D order_approved_at df
    = map (fun d => (midnight d, rows_of_day d df)) ds
    /\ Pandas.resample_D order_approved_at df'
       = map (fun d => (midnight d, rows_of_day d df')) ds.
Proof.
  intros Hp.
  assert (Hin : forall r, In r df <-> In r df').
  { intros r. split; apply Permutation_in; [assumption|now symmetry]. }
  destruct (resample_D_days df)
    as [[Hnone Hres]|(lo & hi & (rl & Hrl & Hlo) & (rh & Hrh & Hhi) & Hspan & Hres)];
    destruct (resample_D_days df')
      as [[Hnone' Hres']
         |(lo' & hi' & (rl' & Hrl' & Hlo') & (rh' & Hrh' & Hhi') & Hspan' & Hres')].
  - exists []. now rewrite Hres, Hres'.
  - exfalso. unfold approved_on in Hlo'.
    destruct (order_approved_at rl') as [t|] eqn:Et; [|discriminate].
    assert (Ht : In t (Pandas.dropna (map order_approved_at df))).
    { apply dropna_In. rewrite <- Et. apply in_map. now apply Hin. }
    now rewrite Hnone in Ht.
  - exfalso. unfold approved_on in Hlo.
    destruct (order_approved_at rl) as [t|] eqn:Et; [|discriminate].
    assert (Ht : In t (Pandas.dropna (map order_approved_at df'))).
    { apply dropna_In. rewrite <- Et. apply in_map. now apply Hin. }
    now rewrite Hnone' in Ht.
  - assert (Hday : forall r d, approved_on d r = true ->
                     exists t, order_approved_at r = Some t /\ day_of t = d).
    { intros r d H. unfold approved_on in H.
      destruct (order_approved_at r) as [t|]; [|discriminate].
      exists t. split; [reflexivity|now apply Z.eqb_eq]. }
    destruct (Hday _ _ Hlo) as (tl & El & <-).
    destruct (Hday _ _ Hhi) as (th & Eh & <-).
    destruct (Hday _ _ Hlo') as (tl' & El' & <-).
    destruct (Hday _ _ Hhi') as (th' & Eh' & <-).
    assert (E1 : day_of tl = day_of tl').
    { pose proof (Hspan' rl tl (proj1 (Hin rl) Hrl) El).
      pose proof (Hspan rl' tl' (proj2 (Hin rl') Hrl') El'). lia. }
    assert (E2 : day_of th = day_of th').
    { pose proof (Hspan' rh th (proj1 (Hin rh) Hrh) Eh).
      pose proof (Hspan rh' th' (proj2 (Hin rh') Hrh') Eh'). lia. }
    exists (days (day_of tl) (day_of th)). split; [assumption|].
    now rewrite E1, E2.
Qed.

(** X23: sorting the orders before the filter changes neither the days of
    the daily tables nor the distinct-order count of any day: the date and
    count columns of the daily orders, and the date column of the daily
    spending, of the filtered sorted table are those of the filtered table
    as it was read. *)
Theorem daily_counts_ignore_sorting
  (all_df df df' : list order_row) (d0 d1 : date) :
  filtered_df all_df [d0; d1] = Ok df ->
  filtered_df (load_data all_df) [d0; d1] = Ok df' ->
  map (fun e => (Daily.order_approved_at e, Daily.total_orders e))
    (prepare_daily_orders df')
  = map (fun e => (Daily.order_approved_at e, Daily.total_orders e))
      (prepare_daily_orders df)
  /\ map Spending.order_approved_at (compute_total_spending df')
     = map Spending.order_approved_at (compute_total_spending df).
Proof.
  rewrite !filtered_df_range. intros H H'.
  inversion H; subst; clear H. inversion H'; subst; clear H'.
  match goal with
  | |- context [prepare_daily_orders (filter ?f (load_data all_df))] =>
      set (kept := f)
  end.
  assert (Hp : Permutation (filter kept (load_data all_df)) (filter kept all_df)).
  { apply filter_perm. unfold load_data, Pandas.sort_values_by.
    rewrite (sort_by_perm _ (filter _ all_df)). apply filter_partition_perm. }
  destruct (resample_D_perm _ _ Hp) as (ds & E & E').
  unfold prepare_daily_orders, compute_total_spending.
  rewrite E, E', !map_map. cbn [fst snd Daily.order_approved_at
    Daily.total_orders Spending.order_approved_at].
  split; [|reflexivity].
  apply map_ext. intros d. f_equal.
  apply nunique_perm, Permutation_map. now apply filter_perm.
Qed.

Lemma daily_counts_ignore_sorting_witness :
  map (fun e => (Daily.order_approved_at e, Daily.total_orders e))
    (prepare_daily_orders
       [ order_line "o1" (Some (at_time jan_1 9 0)) (Some 10) (Some 5);
         order_line "o2" (Some (at_time jan_2 8 0)) (Some 20) (Some 4) ])
  = map (fun e => (Daily.order_approved_at e, Daily.total_orders e))
      (prepare_daily_orders
         [ order_line "o2" (Some (at_time jan_2 8 0)) (Some 20) (Some 4);
           order_line "o1" (Some (at_time jan_1 9 0)) (Some 10) (Some 5) ]).
Proof.
  apply (daily_counts_ignore_sorting unsorted_orders _ _ jan_1 jan_3);
    reflexivity.
Defined.
